(** * @reach/tabs: the selection and keyboard-navigation core

    A shallow embedding of [packages/tabs/src/index.tsx]: the [Tabs]
    selection controller ([onSelectTab], [onFocusPanel]), the [TabList]
    keyboard navigator ([getFocusIndices], [handleKeyDown]) and its layout
    effect, the [Tab] focus effect, and the id/ARIA attributes rendered by
    [Tab] and [TabPanel]. *)

From Stdlib Require Import ZArith List Bool String Ascii Lia.
From Stdlib Require Import DecimalString.
From Stdlib Require Sorted.
From Stdlib Require Import QArith.
Import ListNotations.

Local Open Scope Z_scope.

(** ** JavaScript values used by the component *)

Module Js.

(** DOM nodes are compared by reference ([===]) only; a node is modelled by
    its identity. *)
Definition Element := nat.

Definition eqElement (a b : Element) : bool := Nat.eqb a b.

(** [x === arr[k]] for a node [x]: an array read that falls outside the
    array is [undefined], and no node is [undefined]. *)
Definition sameNode (x : Element) (y : option Element) : bool :=
  match y with
  | Some e => eqElement x e
  | None => false
  end.

Definition length {A} (l : list A) : Z := Z.of_nat (List.length l).

(** [arr[i]] for an integer [i]: [None] is [undefined]. *)
Definition get {A} (l : list A) (i : Z) : option A :=
  if i <? 0 then None else nth_error l (Z.to_nat i).

(** [arr[i]] when [i] itself may be [undefined]. *)
Definition getAt {A} (l : list A) (i : option Z) : option A :=
  match i with
  | Some z => get l z
  | None => None
  end.

(** [n === i] for a number [n] and a possibly-[undefined] [i]. *)
Definition sameIndex (n : Z) (i : option Z) : bool :=
  match i with
  | Some z => n =? z
  | None => false
  end.

(** Exceptions the modelled code can raise. *)
Inductive Error := TypeError.

Inductive Result (A : Type) :=
| Ok (a : A)
| Throw (e : Error).
Arguments Ok {A} a.
Arguments Throw {A} e.

(** [arr.findIndex(p)] from position [n] on, for a callback that may
    throw: the callback runs on each entry until one matches; [-1] when
    none does.  On an empty array the callback never runs. *)
Fixpoint findIndexFrom {A} (p : A -> Result bool) (l : list A) (n : Z)
  : Result Z :=
  match l with
  | [] => Ok (-1)
  | x :: xs =>
      match p x with
      | Throw e => Throw e
      | Ok true => Ok n
      | Ok false => findIndexFrom p xs (n + 1)
      end
  end.

Definition findIndex {A} (p : A -> Result bool) (l : list A) : Result Z :=
  findIndexFrom p l 0.

(** Decimal rendering of a number, as [Array.prototype.join] does. *)
Definition numberToString (z : Z) : string :=
  NilZero.string_of_int (Z.to_int z).

End Js.

Import Js.

(** ** Descendants *)

(** An entry of the tabs registry: [{ element, disabled }]; its index is its
    position in the registry. *)
Record Descendant := mkDescendant {
  element : Element;
  disabled : bool
}.

(** Modelled from the spec: the [focusNodes] array of the descendant context
    ([useDescendantContext] of [@reach/utils]) -- the elements of the
    non-disabled descendants, in registry order. *)
Definition focusNodes (descendants : list Descendant) : list Element :=
  map element (filter (fun d => negb (disabled d)) descendants).

(** ** [TabList]: [getFocusIndices] *)

Record FocusIndices := mkFocusIndices {
  first : Z;
  last : Z;
  prev : Z;
  next : Z
}.

(** The body of the [for] loop, for the descendant at raw index [n]. *)
Definition focusStep (focusNodes : list Element) (selectedFocusIndex : Z)
    (n : Z) (d : Descendant) (acc : FocusIndices) : FocusIndices :=
  let element := element d in
  let acc :=
    if sameNode element (get focusNodes 0)
    then mkFocusIndices n (last acc) (prev acc) (next acc) else acc in
  let acc :=
    if sameNode element (get focusNodes (length focusNodes - 1))
    then mkFocusIndices (first acc) n (prev acc) (next acc) else acc in
  let acc :=
    if sameNode element (get focusNodes (selectedFocusIndex - 1))
    then mkFocusIndices (first acc) (last acc) n (next acc) else acc in
  let acc :=
    if sameNode element (get focusNodes (selectedFocusIndex + 1))
    then mkFocusIndices (first acc) (last acc) (prev acc) n else acc in
  acc.

(** [for (let n = ...; n < descendants.length; n++)], from raw index [n]. *)
Fixpoint focusLoop (focusNodes : list Element) (selectedFocusIndex : Z)
    (descendants : list Descendant) (n : Z) (acc : FocusIndices)
  : FocusIndices :=
  match descendants with
  | [] => acc
  | d :: rest =>
      focusLoop focusNodes selectedFocusIndex rest (n + 1)
        (focusStep focusNodes selectedFocusIndex n d acc)
  end.

(** The [findIndex] callback [element => element ===
    descendants[selectedIndex].element]: reading [.element] of [undefined]
    raises a [TypeError]. *)
Definition isSelectedElement (descendants : list Descendant)
    (selectedIndex : option Z) (element0 : Element) : Result bool :=
  match getAt descendants selectedIndex with
  | None => Throw TypeError
  | Some d => Ok (eqElement element0 (element d))
  end.

Definition getFocusIndices (descendants : list Descendant)
    (focusNodes : list Element) (selectedIndex : option Z)
  : Result FocusIndices :=
  match findIndex (isSelectedElement descendants selectedIndex) focusNodes with
  | Throw e => Throw e
  | Ok selectedFocusIndex =>
      let r := focusLoop focusNodes selectedFocusIndex descendants 0
                 (mkFocusIndices (-1) (-1) (-1) (-1)) in
      Ok (mkFocusIndices
            (first r)
            (last r)
            (if prev r =? -1 then last r else prev r)
            (if next r =? -1 then first r else next r))
  end.

(** ** [Tabs]: props, refs and state of one widget instance *)

(** [TabsProps].  The [onChange] callback is the owner's code: the model
    records whether one is supplied, and its calls appear in the trace. *)
Record TabsProps := mkTabsProps {
  controlledIndex : option Z;   (* [index] *)
  defaultIndex : option Z;
  onChange : bool;
  readOnly : bool
}.

(** What the widget does to the outside world. *)
Inductive Effect :=
| OnChange (index : Z)          (* [onChange(index)] *)
| Focus (node : Element)        (* [node.focus()] *)
| PreventDefault.               (* [event.preventDefault()] *)

Record Widget := mkWidget {
  props : TabsProps;
  isControlled : bool;                 (* [useRef(controlledIndex != null)] *)
  userInteractedRef : bool;            (* [useRef(false)] *)
  selectedPanelRef : option Element;   (* [useRef(null)] *)
  selectedIndex : Z;                   (* [useState(defaultIndex || 0)] *)
  tabs : list Descendant;              (* [useDescendants()] *)
  trace : list Effect
}.

(** Handlers run in a state monad whose state outlives a thrown exception. *)
Definition M (A : Type) : Type := Widget -> Result A * Widget.

Definition ret {A} (a : A) : M A := fun w => (Ok a, w).

Definition bind {A B} (m : M A) (k : A -> M B) : M B :=
  fun w =>
    match m w with
    | (Ok a, w') => k a w'
    | (Throw e, w') => (Throw e, w')
    end.

Declare Scope tabs_scope.
Delimit Scope tabs_scope with tabs.
Notation "x <- m ;; k" := (bind m (fun x => k))
  (at level 61, m at next level, right associativity) : tabs_scope.
Notation "m ;; k" := (bind m (fun _ => k))
  (at level 61, right associativity) : tabs_scope.
Local Open Scope tabs_scope.

Definition noop {A} (_ : A) : M unit := ret tt.

Definition liftResult {A} (r : Result A) : M A := fun w => (r, w).

Definition emit (e : Effect) : M unit :=
  fun w =>
    (Ok tt,
     mkWidget (props w) (isControlled w) (userInteractedRef w)
       (selectedPanelRef w) (selectedIndex w) (tabs w) (trace w ++ [e])).

Definition setUserInteracted (b : bool) : M unit :=
  fun w =>
    (Ok tt,
     mkWidget (props w) (isControlled w) b
       (selectedPanelRef w) (selectedIndex w) (tabs w) (trace w)).

(** The [useState] setter. *)
Definition setSelectedIndex (index : Z) : M unit :=
  fun w =>
    (Ok tt,
     mkWidget (props w) (isControlled w) (userInteractedRef w)
       (selectedPanelRef w) index (tabs w) (trace w)).

(** First render of [Tabs]. *)
Definition mount (p : TabsProps) (descendants : list Descendant)
    (panel : option Element) : Widget :=
  mkWidget p
    (match controlledIndex p with Some _ => true | None => false end)
    false
    panel
    (match defaultIndex p with Some z => z | None => 0 end)
    descendants
    [].

(** The owner re-renders [Tabs] with new props. *)
Definition setProps (p : TabsProps) : M unit :=
  fun w =>
    (Ok tt,
     mkWidget p (isControlled w) (userInteractedRef w)
       (selectedPanelRef w) (selectedIndex w) (tabs w) (trace w)).

(** *** The context value *)

(** [selectedIndex: isControlled.current ? controlledIndex : selectedIndex];
    [None] is [undefined]. *)
Definition contextSelectedIndex (w : Widget) : option Z :=
  if isControlled w then controlledIndex (props w) else Some (selectedIndex w).

(** [setSelectedIndex: isControlled.current ? noop : setSelectedIndex]. *)
Definition contextSetSelectedIndex (index : Z) : M unit :=
  fun w => if isControlled w then noop index w else setSelectedIndex index w.

Definition onFocusPanel : M unit :=
  fun w =>
    match selectedPanelRef w with
    | Some panel => emit (Focus panel) w
    | None => ret tt w
    end.

Definition onSelectTab (index : Z) : M unit :=
  fun w =>
    if readOnly (props w) then noop index w
    else
      (setUserInteracted true ;;
       (fun w => if onChange (props w) then emit (OnChange index) w
                 else ret tt w) ;;
       (fun w => if negb (isControlled w) then setSelectedIndex index w
                 else ret tt w)) w.

(** ** [TabList] *)

Definition isNavigationKey (key : string) : bool :=
  (key =? "ArrowLeft")%string || (key =? "ArrowRight")%string ||
  (key =? "ArrowDown")%string || (key =? "Home")%string ||
  (key =? "End")%string.

Definition handleKeyDown (key : string) : M unit :=
  if negb (isNavigationKey key) then ret tt
  else
    fi <- (fun w =>
             liftResult
               (getFocusIndices (tabs w) (focusNodes (tabs w))
                  (contextSelectedIndex w)) w) ;;
    if (key =? "ArrowRight")%string then onSelectTab (next fi)
    else if (key =? "ArrowLeft")%string then onSelectTab (prev fi)
    else if (key =? "ArrowDown")%string then
      (emit PreventDefault ;; onFocusPanel)
    else if (key =? "Home")%string then onSelectTab (first fi)
    else if (key =? "End")%string then onSelectTab (last fi)
    else ret tt.

(** The [useIsomorphicLayoutEffect] of [TabList]. *)
Definition tabListLayoutEffect : M unit :=
  fun w =>
    if negb (isControlled w) &&
       match getAt (tabs w) (contextSelectedIndex w) with
       | Some d => disabled d
       | None => false
       end
    then
      (fi <- liftResult
               (getFocusIndices (tabs w) (focusNodes (tabs w))
                  (contextSelectedIndex w)) ;;
       contextSetSelectedIndex (next fi)) w
    else ret tt w.

(** ** [Tab] *)

(** [onSelect] of the tab registered at [index]. *)
Definition onSelect (index : Z) : M unit := onSelectTab index.

(** The body of the [useUpdateEffect] of a tab whose node is [ownRef]. *)
Definition tabUpdateEffect (ownRef : option Element) (isSelected : bool)
  : M unit :=
  fun w =>
    match ownRef with
    | Some node =>
        if isSelected && userInteractedRef w
        then (setUserInteracted false ;; emit (Focus node)) w
        else ret tt w
    | None => ret tt w
    end.

(** The update effects of the tabs registered from raw index [n] on, after a
    render in which the context's selected index went from [before] to its
    present value: the effect has [isSelected] as its only dependency, so it
    runs for the tabs whose [isSelected] differs between the two renders. *)
Fixpoint tabUpdateEffectsFrom (before : option Z) (descendants : list Descendant)
    (n : Z) : M unit :=
  match descendants with
  | [] => ret tt
  | d :: rest =>
      (fun w =>
         let isSelected := sameIndex n (contextSelectedIndex w) in
         if Bool.eqb (sameIndex n before) isSelected then ret tt w
         else tabUpdateEffect (Some (element d)) isSelected w) ;;
      tabUpdateEffectsFrom before rest (n + 1)
  end.

Definition tabUpdateEffects (before : option Z) : M unit :=
  fun w => tabUpdateEffectsFrom before (tabs w) 0 w.

(** ** Rendered attributes *)

Inductive IdPart :=
| IdString (s : string)
| IdNumber (n : Z).

Definition idPartToString (p : IdPart) : string :=
  match p with
  | IdString s => s
  | IdNumber n => numberToString n
  end.

(** Modelled from the spec: [makeId] of [@reach/utils], which builds the
    compound ids [{groupId}-tab-{index}] and [{groupId}-panel-{index}] from
    its arguments by joining them with a dash. *)
Definition makeId (args : list IdPart) : string :=
  String.concat "-" (map idPartToString args).

Record TabAttributes := mkTabAttributes {
  tab_id : string;
  tab_aria_controls : string;
  tab_aria_selected : bool;
  tab_data_selected : option string;
  tab_disabled : bool;
  tab_role : string;
  tab_tabIndex : Z
}.

(** The attributes [Tab] renders for the tab registered at [index]. *)
Definition renderTab (tabsId : string) (selectedIndex : option Z)
    (index : Z) (disabled : bool) : TabAttributes :=
  let isSelected := sameIndex index selectedIndex in
  mkTabAttributes
    (makeId [IdString tabsId; IdString "tab"; IdNumber index])
    (makeId [IdString tabsId; IdString "panel"; IdNumber index])
    isSelected
    (if isSelected then Some EmptyString else None)
    disabled
    "tab"
    (if isSelected then 0 else -1).

Record TabPanelAttributes := mkTabPanelAttributes {
  panel_id : string;
  panel_aria_labelledby : string;
  panel_hidden : bool;
  panel_role : string;
  panel_tabIndex : Z
}.

(** The attributes [TabPanel] renders for the panel registered at [index]. *)
Definition renderTabPanel (tabsId : string) (selectedIndex : option Z)
    (index : Z) : TabPanelAttributes :=
  let isSelected := sameIndex index selectedIndex in
  mkTabPanelAttributes
    (makeId [IdString tabsId; IdString "panel"; IdNumber index])
    (makeId [IdString tabsId; IdString "tab"; IdNumber index])
    (negb isSelected)
    "tabpanel"
    (-1).

(** ** Reading a trace *)

Fixpoint onChangeCalls (t : list Effect) : list Z :=
  match t with
  | [] => []
  | OnChange i :: rest => i :: onChangeCalls rest
  | _ :: rest => onChangeCalls rest
  end.

Fixpoint focusCalls (t : list Effect) : list Element :=
  match t with
  | [] => []
  | Focus node :: rest => node :: focusCalls rest
  | _ :: rest => focusCalls rest
  end.

Definition withControlledIndex (p : TabsProps) (i : option Z) : TabsProps :=
  mkTabsProps i (defaultIndex p) (onChange p) (readOnly p).

(** ** The keyboard navigator in the specification's words

    The non-disabled raw indices in order, the position of the selected
    index within them, and the four targets read off that ordering. *)

Fixpoint enabledFrom (descendants : list Descendant) (n : Z) : list Z :=
  match descendants with
  | [] => []
  | d :: rest =>
      if disabled d then enabledFrom rest (n + 1)
      else n :: enabledFrom rest (n + 1)
  end.

Definition enabledIndices (descendants : list Descendant) : list Z :=
  enabledFrom descendants 0.

Fixpoint positionOf (selected : Z) (enabled : list Z) : option nat :=
  match enabled with
  | [] => None
  | r :: rest =>
      if r =? selected then Some 0%nat
      else option_map S (positionOf selected rest)
  end.

Definition specFirst (enabled : list Z) : option Z := hd_error enabled.

Definition specLast (enabled : list Z) : option Z := hd_error (rev enabled).

Definition specNext (enabled : list Z) (selected : Z) : option Z :=
  match positionOf selected enabled with
  | Some k =>
      match nth_error enabled (S k) with
      | Some r => Some r
      | None => specFirst enabled
      end
  | None => specFirst enabled
  end.

Definition specPrev (enabled : list Z) (selected : Z) : option Z :=
  match positionOf selected enabled with
  | Some (S k) => nth_error enabled k
  | _ => specLast enabled
  end.

(** ** Auxiliary definitions for the proofs *)

(** What the loop of [getFocusIndices] does to one of its four variables:
    [target] is the node it is compared with, [a] the variable. *)
Fixpoint scan (target : option Element) (descendants : list Descendant)
    (n : Z) (a : Z) : Z :=
  match descendants with
  | [] => a
  | d :: rest =>
      scan target rest (n + 1) (if sameNode (element d) target then n else a)
  end.

(** The node of the descendant at raw index [r]. *)
Definition elementAt (descendants : list Descendant) (r : Z) : Element :=
  match get descendants r with
  | Some d => element d
  | None => 0%nat
  end.

(** The entry of [enabled] at position [z], or the loop's initial [-1]. *)
Definition pick (enabled : list Z) (z : Z) : Z :=
  match get enabled z with
  | Some r => r
  | None => -1
  end.

Definition positionZ (selected : Z) (enabled : list Z) : Z :=
  match positionOf selected enabled with
  | Some k => Z.of_nat k
  | None => -1
  end.

(** [getFocusIndices] read on the enabled raw indices. *)
Definition navigate (enabled : list Z) (selected : Z) : FocusIndices :=
  let s := positionZ selected enabled in
  let f := pick enabled 0 in
  let l := pick enabled (length enabled - 1) in
  let p := pick enabled (s - 1) in
  let x := pick enabled (s + 1) in
  mkFocusIndices f l (if p =? -1 then l else p) (if x =? -1 then f else x).

(** A raw index that addresses an enabled tab. *)
Definition enabledAt (ds : list Descendant) (r : Z) : Prop :=
  exists d, get ds r = Some d /\ disabled d = false.

(** The widget after a tab's update effect has consumed the
    user-interaction flag and focused [node]. *)
Definition focused (w : Widget) (node : Element) : Widget :=
  mkWidget (props w) (isControlled w) false (selectedPanelRef w)
    (selectedIndex w) (tabs w) (trace w ++ [Focus node]).

(** Four tabs, the second one disabled: the enabled raw indices are
    [0; 2; 3]. *)
Definition fourTabs : list Descendant :=
  [mkDescendant 100%nat false; mkDescendant 101%nat true;
   mkDescendant 102%nat false; mkDescendant 103%nat false].

(** Three tabs, the first one disabled. *)
Definition threeTabs : list Descendant :=
  [mkDescendant 200%nat true; mkDescendant 201%nat false;
   mkDescendant 202%nat false].

(** A widget whose only tab is disabled. *)
Definition oneDisabledTab : Widget :=
  mount (mkTabsProps None None true false) [mkDescendant 400%nat true] None.

(** A controlled widget with one enabled tab whose owner supplies index 1:
    the selected index is past the end of the registry. *)
Definition staleIndex : Widget :=
  mount (mkTabsProps (Some 1) None true false) [mkDescendant 500%nat false]
    None.

(** A controlled widget at index 1 whose owner then supplies index 2. *)
Definition controlledAtOne : Widget :=
  mount (mkTabsProps (Some 1) None true false) threeTabs None.

(** ** Sequences of user actions *)

(** The select requests [onSelectTab(i)] for the indices of [requests], one
    after the other. *)
Fixpoint requestAll (requests : list Z) : M unit :=
  match requests with
  | [] => ret tt
  | i :: rest => onSelectTab i ;; requestAll rest
  end.

(** The key presses of [keys], one after the other. *)
Fixpoint pressAll (keys : list string) : M unit :=
  match keys with
  | [] => ret tt
  | key :: rest => handleKeyDown key ;; pressAll rest
  end.

(** ** [Tabs]: the mode warnings *)

Inductive Warning :=
| ControlledToUncontrolled
| UncontrolledToControlled.

(** The [useEffect] of [Tabs] that depends on [controlledIndex]: each
    [warning(cond, message)] reports when [cond] is false. *)
Definition modeWarnings (w : Widget) : list Warning :=
  let controlledIsNull :=
    match controlledIndex (props w) with Some _ => false | None => true end in
  (if negb (isControlled w && controlledIsNull) then []
   else [ControlledToUncontrolled]) ++
  (if negb (negb (isControlled w) && negb controlledIsNull) then []
   else [UncontrolledToControlled]).

(** ** [TabList] and [TabPanels]: the rendered children *)

(** The attributes of the tabs registered from raw index [n] on; each [Tab]
    renders with its position in the registry as [index]. *)
Fixpoint renderTabsFrom (tabsId : string) (selectedIndex : option Z)
    (descendants : list Descendant) (n : Z) : list TabAttributes :=
  match descendants with
  | [] => []
  | d :: rest =>
      renderTab tabsId selectedIndex n (disabled d)
      :: renderTabsFrom tabsId selectedIndex rest (n + 1)
  end.

Definition renderTabs (tabsId : string) (w : Widget) : list TabAttributes :=
  renderTabsFrom tabsId (contextSelectedIndex w) (tabs w) 0.

(** The attributes of [count] registered panels, from raw index [n] on. *)
Fixpoint renderTabPanelsFrom (tabsId : string) (selectedIndex : option Z)
    (count : nat) (n : Z) : list TabPanelAttributes :=
  match count with
  | O => []
  | S count' =>
      renderTabPanel tabsId selectedIndex n
      :: renderTabPanelsFrom tabsId selectedIndex count' (n + 1)
  end.

(** Whether the selected index lies in [n, n + len): 1 if so, else 0. *)
Definition inRange (sel : option Z) (n len : Z) : nat :=
  match sel with
  | Some j => if (n <=? j) && (j <? n + len) then 1%nat else 0%nat
  | None => 0%nat
  end.

(** ** [Tabs.propTypes.index] *)

(** A JavaScript number: [NaN], an infinity, or a finite number given by its
    exact value (every finite double is a rational). *)
Inductive JsNumber :=
| NaN
| Infinity (negative : bool)
| Finite (q : Q).

(** The kinds of value, other than [undefined], [null], numbers and
    booleans, a caller can pass as a prop. *)
Inductive OtherKind := KString | KArray | KObject | KFunction.

(** A prop value as the validator sees it.  A string, array, object or
    function is described by its kind and by the number the comparison
    [value > -1] converts it to. *)
Inductive JsValue :=
| VUndefined
| VNull
| VNumber (n : JsNumber)
| VBoolean (b : bool)
| VOther (kind : OtherKind) (asNumber : JsNumber).

(** [v == null]. *)
Definition looseNull (v : JsValue) : bool :=
  match v with
  | VUndefined | VNull => true
  | _ => false
  end.

(** [v === true]. *)
Definition strictTrue (v : JsValue) : bool :=
  match v with
  | VBoolean true => true
  | _ => false
  end.

(** The number [v] converts to in a comparison. *)
Definition toNumber (v : JsValue) : JsNumber :=
  match v with
  | VUndefined => NaN
  | VNull => Finite (inject_Z 0)
  | VNumber n => n
  | VBoolean b => Finite (inject_Z (if b then 1 else 0))
  | VOther _ n => n
  end.

(** [n > z] for a number [n] and an integer literal [z]: false for [NaN]. *)
Definition numberGreaterThan (n : JsNumber) (z : Z) : bool :=
  match n with
  | NaN => false
  | Infinity negative => negb negative
  | Finite q => negb (Qle_bool q (inject_Z z))
  end.

(** [v > z]. *)
Definition greaterThan (v : JsValue) (z : Z) : bool :=
  numberGreaterThan (toNumber v) z.

(** [typeof v]. *)
Definition typeOf (v : JsValue) : string :=
  match v with
  | VUndefined => "undefined"
  | VNull => "object"
  | VNumber _ => "number"
  | VBoolean _ => "boolean"
  | VOther KString _ => "string"
  | VOther KArray _ => "object"
  | VOther KObject _ => "object"
  | VOther KFunction _ => "function"
  end.

(** [Array.isArray(v)]. *)
Definition isArray (v : JsValue) : bool :=
  match v with
  | VOther KArray _ => true
  | _ => false
  end.

(** The props the validator reads. *)
Record RawProps := mkRawProps {
  raw_index : JsValue;
  raw_onChange : JsValue;
  raw_readOnly : JsValue
}.

(** The validator of the [index] prop: [None] is [null], [Some message] is
    [new Error(message)]. *)
Definition indexPropType (props : RawProps) (compName propName : string)
  : option string :=
  let val := raw_index props in
  if greaterThan (raw_index props) (-1) &&
     looseNull (raw_onChange props) &&
     negb (strictTrue (raw_readOnly props))
  then
    Some ("You provided a value prop to `" ++ compName ++
          "` without an `onChange` handler. This will render a read-only tabs element. If the tabs should be mutable use `defaultIndex`. Otherwise, set `onChange`.")%string
  else if negb (looseNull val) && negb (typeOf val =? "number")%string
  then
    Some ("Invalid prop `" ++ propName ++ "` supplied to `" ++ compName ++
          "`. Expected `number`, received `" ++
          (if isArray val then "array" else typeOf val) ++ "`.")%string
  else None.

(** The [useDescendants] state setter of [Tabs]: the registry after a tab
    registered, unregistered or re-registered with another [disabled]. *)
Definition setTabs (descendants : list Descendant) : M unit :=
  fun w =>
    (Ok tt,
     mkWidget (props w) (isControlled w) (userInteractedRef w)
       (selectedPanelRef w) (selectedIndex w) descendants (trace w)).

(** Two enabled tabs, and the same two tabs once the first is disabled. *)
Definition twoTabs : list Descendant :=
  [mkDescendant 600%nat false; mkDescendant 601%nat false].

Definition twoTabsFirstDisabled : list Descendant :=
  [mkDescendant 600%nat true; mkDescendant 601%nat false].

(** An uncontrolled widget on its first tab; the user clicks that tab, which
    is already selected, and the owner then disables it. *)
Definition clickedThenDisabled : Widget :=
  snd (setTabs twoTabsFirstDisabled
         (snd (onSelect 0
                 (mount (mkTabsProps None None true false) twoTabs None)))).

(** Runs the state-monad plumbing of a handler. *)
Ltac run :=
  unfold bind, ret, noop, liftResult, emit, setUserInteracted,
    setSelectedIndex, contextSetSelectedIndex, setProps in *;
  simpl in *.

(** ** The loop of [getFocusIndices] *)

Section FocusLoop.

Variable fns : list Element.
Variable s : Z.

Lemma focusLoop_scan (ds : list Descendant) :
  forall n acc,
    let r := focusLoop fns s ds n acc in
    first r = scan (get fns 0) ds n (first acc) /\
    last r = scan (get fns (length fns - 1)) ds n (last acc) /\
    prev r = scan (get fns (s - 1)) ds n (prev acc) /\
    next r = scan (get fns (s + 1)) ds n (next acc).
Proof.
  induction ds as [|d rest IH]; intros n acc; simpl.
  - repeat split.
  - specialize (IH (n + 1) (focusStep fns s n d acc)).
    cbv zeta in IH. destruct IH as (H1 & H2 & H3 & H4).
    rewrite H1, H2, H3, H4. unfold focusStep.
    destruct (sameNode (element d) (get fns 0));
      destruct (sameNode (element d) (get fns (length fns - 1)));
      destruct (sameNode (element d) (get fns (s - 1)));
      destruct (sameNode (element d) (get fns (s + 1)));
      simpl; repeat split.
Qed.

End FocusLoop.

Lemma scan_absent (ds : list Descendant) :
  forall t n a,
    (forall e, t = Some e -> ~ In e (map element ds)) ->
    scan t ds n a = a.
Proof.
  induction ds as [|d rest IH]; intros t n a Ht; simpl; [reflexivity|].
  assert (Hd : sameNode (element d) t = false).
  { destruct t as [e|]; simpl; [|reflexivity].
    apply Nat.eqb_neq. intros E. apply (Ht e eq_refl). simpl. now left. }
  rewrite Hd. apply IH. intros e He Hin. apply (Ht e He). simpl. now right.
Qed.

Lemma scan_found (ds : list Descendant) :
  forall k d n a,
    NoDup (map element ds) ->
    nth_error ds k = Some d ->
    scan (Some (element d)) ds n a = n + Z.of_nat k.
Proof.
  induction ds as [|d0 rest IH]; intros k d n a Hnd Hk.
  - destruct k; discriminate.
  - simpl in Hnd. inversion Hnd as [|x l Hnotin Hnd']; subst.
    destruct k as [|k]; simpl in Hk |- *.
    + inversion Hk; subst. unfold eqElement. rewrite Nat.eqb_refl.
      rewrite scan_absent; [lia|].
      intros e He. inversion He; subst. exact Hnotin.
    + assert (Hne : eqElement (element d0) (element d) = false).
      { apply Nat.eqb_neq. intros E. apply Hnotin. rewrite E.
        apply in_map. eapply nth_error_In; eauto. }
      rewrite Hne. rewrite (IH k d (n + 1) a Hnd' Hk). lia.
Qed.

(** ** The focus nodes and the enabled raw indices *)

Lemma get_nth_error {A} (l : list A) (k : nat) :
  get l (Z.of_nat k) = nth_error l k.
Proof.
  unfold get. destruct (Z.ltb_spec (Z.of_nat k) 0); [lia|].
  now rewrite Nat2Z.id.
Qed.

Lemma get_map {A B} (f : A -> B) (l : list A) (z : Z) :
  get (map f l) z = option_map f (get l z).
Proof.
  unfold get. destruct (z <? 0); [reflexivity|]. apply nth_error_map.
Qed.

Lemma get_In {A} (l : list A) (z : Z) (a : A) : get l z = Some a -> In a l.
Proof.
  unfold get. destruct (z <? 0); [discriminate|]. apply nth_error_In.
Qed.

Lemma get_app_length {A} (pre l : list A) :
  get (pre ++ l) (length pre) = hd_error l.
Proof.
  unfold length. rewrite get_nth_error.
  rewrite nth_error_app2 by lia. rewrite Nat.sub_diag. now destruct l.
Qed.

Lemma length_snoc {A} (pre : list A) (a : A) :
  length (pre ++ [a]) = length pre + 1.
Proof. unfold length. rewrite length_app. simpl. lia. Qed.

Lemma focusNodes_enabledFrom (ds : list Descendant) :
  forall pre,
    focusNodes ds =
    map (elementAt (pre ++ ds)) (enabledFrom ds (length pre)).
Proof.
  induction ds as [|d rest IH]; intros pre; [reflexivity|].
  specialize (IH (pre ++ [d])).
  rewrite <- app_assoc, length_snoc in IH. simpl in IH.
  unfold focusNodes in *. simpl.
  destruct (disabled d); simpl; [exact IH|].
  rewrite IH. f_equal.
  unfold elementAt. now rewrite get_app_length.
Qed.

Lemma focusNodes_enabledIndices (ds : list Descendant) :
  focusNodes ds = map (elementAt ds) (enabledIndices ds).
Proof. exact (focusNodes_enabledFrom ds []). Qed.

Lemma enabledFrom_enabledAt (ds : list Descendant) :
  forall pre r,
    In r (enabledFrom ds (length pre)) -> enabledAt (pre ++ ds) r.
Proof.
  induction ds as [|d rest IH]; intros pre r Hin; [destruct Hin|].
  simpl in Hin.
  assert (Hrest : In r (enabledFrom rest (length pre + 1)) ->
                  enabledAt (pre ++ d :: rest) r).
  { intros H. specialize (IH (pre ++ [d]) r).
    rewrite <- app_assoc, length_snoc in IH. now apply IH. }
  destruct (disabled d) eqn:Hd; [now apply Hrest|].
  destruct Hin as [<-|Hin]; [|now apply Hrest].
  exists d. split; [|exact Hd]. now rewrite get_app_length.
Qed.

Lemma enabledIndices_enabledAt (ds : list Descendant) (r : Z) :
  In r (enabledIndices ds) -> enabledAt ds r.
Proof. exact (enabledFrom_enabledAt ds [] r). Qed.

Lemma get_elementAt (ds : list Descendant) (r : Z) (d : Descendant) :
  get ds r = Some d -> elementAt ds r = element d.
Proof. unfold elementAt. now intros ->. Qed.

Lemma get_inj (ds : list Descendant) (r r' : Z) (d d' : Descendant) :
  NoDup (map element ds) ->
  get ds r = Some d -> get ds r' = Some d' ->
  element d = element d' -> r = r'.
Proof.
  unfold get. intros Hnd Hr Hr' E.
  destruct (Z.ltb_spec r 0); [discriminate|].
  destruct (Z.ltb_spec r' 0); [discriminate|].
  assert (Z.to_nat r = Z.to_nat r'); [|lia].
  apply (proj1 (NoDup_nth_error (map element ds)) Hnd).
  - rewrite length_map. apply nth_error_Some. now rewrite Hr.
  - rewrite !nth_error_map, Hr, Hr'. simpl. now rewrite E.
Qed.

Lemma scan_pick (ds : list Descendant) (z : Z) :
  NoDup (map element ds) ->
  scan (get (focusNodes ds) z) ds 0 (-1) = pick (enabledIndices ds) z.
Proof.
  intros Hnd. rewrite focusNodes_enabledIndices, get_map. unfold pick.
  destruct (get (enabledIndices ds) z) as [r|] eqn:Hz; simpl.
  - destruct (enabledIndices_enabledAt ds r (get_In _ _ _ Hz))
      as (d & Hd & _).
    rewrite (get_elementAt _ _ _ Hd).
    unfold get in Hd. destruct (Z.ltb_spec r 0); [discriminate|].
    rewrite (scan_found ds _ d 0 (-1) Hnd Hd). lia.
  - apply scan_absent. discriminate.
Qed.

Lemma findIndexFrom_position (ds : list Descendant) (sel : Z)
    (d : Descendant) (en : list Z) :
  NoDup (map element ds) ->
  get ds sel = Some d ->
  (forall r, In r en -> enabledAt ds r) ->
  forall n,
    findIndexFrom (isSelectedElement ds (Some sel)) (map (elementAt ds) en) n
    = Ok (match positionOf sel en with
          | Some k => n + Z.of_nat k
          | None => -1
          end).
Proof.
  intros Hnd Hsel. induction en as [|r rest IH]; intros Hen n; simpl.
  - reflexivity.
  - unfold isSelectedElement at 1. simpl. rewrite Hsel.
    destruct (Hen r (or_introl eq_refl)) as (dr & Hdr & _).
    rewrite (get_elementAt _ _ _ Hdr).
    destruct (Z.eqb_spec r sel) as [->|Hne].
    + rewrite Hsel in Hdr. inversion Hdr; subst.
      unfold eqElement. rewrite Nat.eqb_refl. f_equal. lia.
    + assert (E : eqElement (element dr) (element d) = false).
      { apply Nat.eqb_neq. intros E. apply Hne.
        exact (get_inj ds r sel dr d Hnd Hdr Hsel E). }
      rewrite E. rewrite IH by (intros r' Hr'; apply Hen; now right).
      destruct (positionOf sel rest); simpl; f_equal; lia.
Qed.

Lemma length_focusNodes (ds : list Descendant) :
  length (focusNodes ds) = length (enabledIndices ds).
Proof.
  rewrite focusNodes_enabledIndices. unfold length. now rewrite length_map.
Qed.

(** [getFocusIndices], for a selected index that addresses a registered tab,
    is [navigate] on the enabled raw indices. *)
Lemma getFocusIndices_navigate (ds : list Descendant) (sel : Z)
    (d : Descendant) :
  NoDup (map element ds) ->
  get ds sel = Some d ->
  getFocusIndices ds (focusNodes ds) (Some sel)
  = Ok (navigate (enabledIndices ds) sel).
Proof.
  intros Hnd Hsel. unfold getFocusIndices, findIndex.
  rewrite focusNodes_enabledIndices at 1.
  rewrite (findIndexFrom_position ds sel d _ Hnd Hsel
             (enabledIndices_enabledAt ds) 0).
  fold (positionZ sel (enabledIndices ds)).
  replace (match positionOf sel (enabledIndices ds) with
           | Some k => 0 + Z.of_nat k
           | None => -1
           end) with (positionZ sel (enabledIndices ds))
    by (unfold positionZ; destruct positionOf; lia).
  destruct (focusLoop_scan (focusNodes ds)
              (positionZ sel (enabledIndices ds)) ds 0
              (mkFocusIndices (-1) (-1) (-1) (-1))) as (H1 & H2 & H3 & H4).
  rewrite H1, H2, H3, H4. simpl.
  rewrite !scan_pick by exact Hnd. rewrite length_focusNodes.
  reflexivity.
Qed.

(** ** [navigate] against the navigator in the specification's words *)

Lemma positionOf_lt (sel : Z) (en : list Z) :
  forall k, positionOf sel en = Some k -> (k < List.length en)%nat.
Proof.
  induction en as [|r rest IH]; intros k; simpl; [discriminate|].
  destruct (r =? sel).
  - intros H. inversion H. lia.
  - destruct (positionOf sel rest) as [k'|]; simpl; [|discriminate].
    intros H. inversion H. specialize (IH k' eq_refl). lia.
Qed.

Lemma positionOf_absent (sel : Z) (en : list Z) :
  ~ In sel en -> positionOf sel en = None.
Proof.
  induction en as [|r rest IH]; intros Hn; simpl; [reflexivity|].
  destruct (Z.eqb_spec r sel) as [->|_].
  - exfalso. apply Hn. now left.
  - rewrite IH; [reflexivity|]. intros H. apply Hn. now right.
Qed.

Lemma get_last (en : list Z) : get en (length en - 1) = specLast en.
Proof.
  unfold specLast. destruct en as [|a l] using rev_ind; [reflexivity|].
  rewrite rev_unit. simpl. rewrite length_snoc.
  replace (length l + 1 - 1) with (length l) by lia.
  now rewrite get_app_length.
Qed.

Lemma get_zero {A} (l : list A) : get l 0 = hd_error l.
Proof. now destruct l. Qed.

Lemma get_negative {A} (l : list A) (z : Z) : z < 0 -> get l z = None.
Proof. intros H. unfold get. now destruct (Z.ltb_spec z 0); [|lia]. Qed.

Lemma pick_get (en : list Z) (z r : Z) :
  (forall x, In x en -> 0 <= x) ->
  get en z = Some r -> pick en z = r /\ (pick en z =? -1) = false.
Proof.
  intros Hpos Hz. unfold pick. rewrite Hz. split; [reflexivity|].
  apply Z.eqb_neq. specialize (Hpos r (get_In _ _ _ Hz)). lia.
Qed.

Lemma pick_none (en : list Z) (z : Z) : get en z = None -> pick en z = -1.
Proof. unfold pick. now intros ->. Qed.

Lemma navigate_spec (en : list Z) (sel : Z) :
  (forall x, In x en -> 0 <= x) ->
  en <> [] ->
  let fi := navigate en sel in
  Some (first fi) = specFirst en /\
  Some (last fi) = specLast en /\
  Some (prev fi) = specPrev en sel /\
  Some (next fi) = specNext en sel.
Proof.
  intros Hpos Hne. unfold navigate. cbv zeta. simpl.
  assert (Hf : exists f, get en 0 = Some f).
  { destruct en as [|f l]; [congruence|]. now exists f. }
  assert (Hl : exists l, get en (length en - 1) = Some l).
  { rewrite get_last. unfold specLast.
    destruct (rev en) as [|l t] eqn:E; [|now exists l].
    apply (f_equal (@rev Z)) in E. rewrite rev_involutive in E.
    simpl in E. congruence. }
  destruct Hf as (f & Hf). destruct Hl as (l & Hl).
  destruct (pick_get en 0 f Hpos Hf) as (Ef & _).
  destruct (pick_get en _ l Hpos Hl) as (El & _).
  rewrite Ef, El.
  assert (Sf : specFirst en = Some f)
    by (unfold specFirst; now rewrite <- get_zero).
  assert (Sl : specLast en = Some l) by (now rewrite <- get_last).
  unfold specPrev, specNext, positionZ.
  destruct (positionOf sel en) as [k|] eqn:Hk.
  - repeat split; try congruence.
    + destruct k as [|k].
      * rewrite (pick_none en (Z.of_nat 0 - 1))
          by (apply get_negative; lia).
        simpl. congruence.
      * replace (Z.of_nat (S k) - 1) with (Z.of_nat k) by lia.
        pose proof (positionOf_lt _ _ _ Hk) as Hlt.
        destruct (nth_error en k) as [r|] eqn:Hr.
        -- rewrite <- get_nth_error in Hr.
           destruct (pick_get en _ r Hpos Hr) as (-> & ->). reflexivity.
        -- apply nth_error_None in Hr. lia.
    + replace (Z.of_nat k + 1) with (Z.of_nat (S k)) by lia.
      destruct (nth_error en (S k)) as [r|] eqn:Hr.
      * rewrite <- get_nth_error in Hr.
        destruct (pick_get en _ r Hpos Hr) as (-> & ->). reflexivity.
      * rewrite <- get_nth_error in Hr. rewrite (pick_none _ _ Hr).
        simpl. congruence.
  - repeat split; try congruence.
    + rewrite (pick_none en (-1 - 1)) by (apply get_negative; lia).
      simpl. congruence.
    + replace (-1 + 1) with 0 by lia. rewrite Ef.
      destruct (f =? -1); congruence.
Qed.

Lemma enabledIndices_nonneg (ds : list Descendant) (x : Z) :
  In x (enabledIndices ds) -> 0 <= x.
Proof.
  intros H. destruct (enabledIndices_enabledAt ds x H) as (d & Hd & _).
  unfold get in Hd. destruct (Z.ltb_spec x 0); [discriminate|lia].
Qed.

(** ** Running [handleKeyDown] *)

Lemma handleKeyDown_navigation (w : Widget) (fi : FocusIndices) :
  getFocusIndices (tabs w) (focusNodes (tabs w)) (contextSelectedIndex w)
  = Ok fi ->
  handleKeyDown "ArrowRight" w = onSelectTab (next fi) w /\
  handleKeyDown "ArrowLeft" w = onSelectTab (prev fi) w /\
  handleKeyDown "Home" w = onSelectTab (first fi) w /\
  handleKeyDown "End" w = onSelectTab (last fi) w /\
  handleKeyDown "ArrowDown" w = (emit PreventDefault ;; onFocusPanel) w.
Proof.
  intros H. unfold handleKeyDown, bind, liftResult. simpl.
  rewrite H. repeat split.
Qed.

Lemma handleKeyDown_throw (w : Widget) (key : string) (e : Error) :
  isNavigationKey key = true ->
  getFocusIndices (tabs w) (focusNodes (tabs w)) (contextSelectedIndex w)
  = Throw e ->
  handleKeyDown key w = (Throw e, w).
Proof.
  intros Hk H. unfold handleKeyDown, bind, liftResult.
  rewrite Hk. simpl. now rewrite H.
Qed.

(** C2.  Keyboard navigation computes its targets over the enabled subset of
    the tabs, with wrap-around.  For a registry of distinct nodes with at
    least one enabled tab and a selected index that addresses a registered
    tab, [getFocusIndices] returns the targets the specification words
    define on the enabled raw indices: [next] is the enabled entry right
    after the selected one, or the first enabled entry when none follows;
    [prev] is the enabled entry right before it, or the last enabled entry
    when none precedes; and the four selection keys request exactly these
    targets.  With enabled raw indices [0; 2; 3]: right from 0 is 2, right
    from 3 is 0, left from 0 is 3. *)
Theorem keyboard_navigation_targets
    (ds : list Descendant) (sel : Z) (d : Descendant) :
  NoDup (map element ds) ->
  get ds sel = Some d ->
  enabledIndices ds <> [] ->
  (exists fi,
      getFocusIndices ds (focusNodes ds) (Some sel) = Ok fi /\
      Some (first fi) = specFirst (enabledIndices ds) /\
      Some (last fi) = specLast (enabledIndices ds) /\
      Some (prev fi) = specPrev (enabledIndices ds) sel /\
      Some (next fi) = specNext (enabledIndices ds) sel /\
      forall w,
        tabs w = ds -> contextSelectedIndex w = Some sel ->
        handleKeyDown "ArrowRight" w = onSelectTab (next fi) w /\
        handleKeyDown "ArrowLeft" w = onSelectTab (prev fi) w /\
        handleKeyDown "Home" w = onSelectTab (first fi) w /\
        handleKeyDown "End" w = onSelectTab (last fi) w) /\
  enabledIndices fourTabs = [0; 2; 3] /\
  getFocusIndices fourTabs (focusNodes fourTabs) (Some 0)
  = Ok (mkFocusIndices 0 3 3 2) /\
  getFocusIndices fourTabs (focusNodes fourTabs) (Some 3)
  = Ok (mkFocusIndices 0 3 2 0).
Proof.
  intros Hnd Hsel Hne. split; [|repeat split].
  exists (navigate (enabledIndices ds) sel).
  pose proof (getFocusIndices_navigate ds sel d Hnd Hsel) as Hg.
  destruct (navigate_spec (enabledIndices ds) sel
              (enabledIndices_nonneg ds) Hne) as (H1 & H2 & H3 & H4).
  repeat (split; [assumption|]).
  intros w Hw Hc. subst ds. rewrite <- Hc in Hg.
  destruct (handleKeyDown_navigation w _ Hg) as (K1 & K2 & K3 & K4 & _).
  auto.
Qed.

Lemma keyboard_navigation_targets_witness :
  NoDup (map element fourTabs) /\
  get fourTabs 3 = Some (mkDescendant 103%nat false) /\
  enabledIndices fourTabs <> [] /\
  exists fi,
    getFocusIndices fourTabs (focusNodes fourTabs) (Some 3) = Ok fi /\
    Some (next fi) = specNext (enabledIndices fourTabs) 3.
Proof.
  assert (H1 : NoDup (map element fourTabs)).
  { simpl. repeat constructor; simpl; intuition discriminate. }
  assert (H2 : get fourTabs 3 = Some (mkDescendant 103%nat false))
    by reflexivity.
  assert (H3 : enabledIndices fourTabs <> []) by (simpl; discriminate).
  repeat (split; [assumption|]).
  destruct (keyboard_navigation_targets fourTabs 3 _ H1 H2 H3)
    as ((fi & Hg & _ & _ & _ & Hn & _) & _).
  exists fi. split; assumption.
Defined.

(** ** Select requests *)

Lemma onChangeCalls_app (a b : list Effect) :
  onChangeCalls (a ++ b) = onChangeCalls a ++ onChangeCalls b.
Proof.
  induction a as [|e a IH]; simpl; [reflexivity|].
  destruct e; simpl; now rewrite IH.
Qed.

Lemma focusCalls_app (a b : list Effect) :
  focusCalls (a ++ b) = focusCalls a ++ focusCalls b.
Proof.
  induction a as [|e a IH]; simpl; [reflexivity|].
  destruct e; simpl; now rewrite IH.
Qed.

(** C1.  On a widget that is not read-only and has an [onChange] handler, a
    select request for index [i] succeeds, calls [onChange(i)] exactly once
    and marks the change as user-initiated; an uncontrolled widget then has
    [i] as its selected index, a controlled one keeps its internal state and
    its selected index.  A click on the tab registered at [i] and a
    navigation key that resolves to [i] are such requests. *)
Theorem select_request (w : Widget) (i : Z) :
  readOnly (props w) = false ->
  onChange (props w) = true ->
  exists w',
    onSelectTab i w = (Ok tt, w') /\
    trace w' = trace w ++ [OnChange i] /\
    onChangeCalls (trace w') = onChangeCalls (trace w) ++ [i] /\
    userInteractedRef w' = true /\
    (isControlled w = false ->
     selectedIndex w' = i /\ contextSelectedIndex w' = Some i) /\
    (isControlled w = true ->
     selectedIndex w' = selectedIndex w /\
     contextSelectedIndex w' = contextSelectedIndex w) /\
    onSelect i w = (Ok tt, w') /\
    (forall fi,
        getFocusIndices (tabs w) (focusNodes (tabs w))
          (contextSelectedIndex w) = Ok fi ->
        (next fi = i -> handleKeyDown "ArrowRight" w = (Ok tt, w')) /\
        (prev fi = i -> handleKeyDown "ArrowLeft" w = (Ok tt, w')) /\
        (first fi = i -> handleKeyDown "Home" w = (Ok tt, w')) /\
        (last fi = i -> handleKeyDown "End" w = (Ok tt, w'))).
Proof.
  intros Hro Hoc.
  assert (E : exists w', onSelectTab i w = (Ok tt, w')).
  { unfold onSelectTab. rewrite Hro. run. rewrite Hoc.
    destruct (isControlled w); run; eauto. }
  destruct E as (w' & E). exists w'.
  assert (F : trace w' = trace w ++ [OnChange i] /\
              userInteractedRef w' = true /\
              (isControlled w = false ->
               selectedIndex w' = i /\ contextSelectedIndex w' = Some i) /\
              (isControlled w = true ->
               selectedIndex w' = selectedIndex w /\
               contextSelectedIndex w' = contextSelectedIndex w)).
  { revert E. unfold onSelectTab. rewrite Hro. run. rewrite Hoc.
    unfold contextSelectedIndex.
    destruct (isControlled w) eqn:Hc; run; intros E; inversion E; subst;
      simpl; rewrite ?Hc; repeat split; try congruence. }
  destruct F as (F1 & F2 & F3 & F4).
  repeat (split; [assumption|]).
  split. { rewrite F1, onChangeCalls_app. reflexivity. }
  repeat (split; [assumption|]).
  intros fi Hfi.
  destruct (handleKeyDown_navigation w fi Hfi) as (K1 & K2 & K3 & K4 & _).
  repeat split; intros <-; congruence.
Qed.

Lemma select_request_witness :
  let w := mount (mkTabsProps None None true false) threeTabs None in
  readOnly (props w) = false /\
  onChange (props w) = true /\
  exists w',
    onSelectTab 2 w = (Ok tt, w') /\
    onChangeCalls (trace w') = [2] /\
    selectedIndex w' = 2.
Proof.
  cbv zeta.
  assert (H1 : readOnly (props (mount (mkTabsProps None None true false)
                                  threeTabs None)) = false) by reflexivity.
  assert (H2 : onChange (props (mount (mkTabsProps None None true false)
                                  threeTabs None)) = true) by reflexivity.
  repeat (split; [assumption|]).
  destruct (select_request _ 2 H1 H2) as (w' & E & _ & C & _ & U & _).
  exists w'. repeat split; [exact E|exact C|].
  apply U. reflexivity.
Defined.

(** C6.  On a read-only widget a click on any tab changes nothing at all,
    and a key press leaves the internal selected index, the selected index
    and the user-interaction flag as they were and never calls [onChange],
    whether the handler returns or throws. *)
Theorem readOnly_requests (w : Widget) :
  readOnly (props w) = true ->
  (forall i, onSelectTab i w = (Ok tt, w)) /\
  (forall i, onSelect i w = (Ok tt, w)) /\
  (forall key,
      let w' := snd (handleKeyDown key w) in
      selectedIndex w' = selectedIndex w /\
      contextSelectedIndex w' = contextSelectedIndex w /\
      userInteractedRef w' = userInteractedRef w /\
      onChangeCalls (trace w') = onChangeCalls (trace w)).
Proof.
  intros Hro.
  assert (S : forall i, onSelectTab i w = (Ok tt, w)).
  { intros i. unfold onSelectTab. now rewrite Hro. }
  split; [exact S|]. split; [exact S|].
  intros key. cbv zeta. unfold handleKeyDown.
  destruct (isNavigationKey key); simpl; [|repeat split].
  unfold bind, liftResult.
  destruct (getFocusIndices (tabs w) (focusNodes (tabs w))
              (contextSelectedIndex w)) as [fi|e]; simpl; [|repeat split].
  destruct (key =? "ArrowRight")%string; [rewrite S; repeat split|].
  destruct (key =? "ArrowLeft")%string; [rewrite S; repeat split|].
  destruct (key =? "ArrowDown")%string.
  { unfold emit, onFocusPanel. simpl.
    destruct (selectedPanelRef w); simpl; repeat split;
      rewrite ?onChangeCalls_app; simpl; now rewrite ?app_nil_r. }
  destruct (key =? "Home")%string; [rewrite S; repeat split|].
  destruct (key =? "End")%string; [rewrite S; repeat split|].
  repeat split.
Qed.

Lemma readOnly_requests_witness :
  let w := mount (mkTabsProps None None true true) threeTabs None in
  readOnly (props w) = true /\ onSelect 1 w = (Ok tt, w).
Proof.
  cbv zeta. split; [reflexivity|].
  apply (readOnly_requests
           (mount (mkTabsProps None None true true) threeTabs None)
           eq_refl).
Defined.

(** ** Keys that do not select *)

Lemma findIndexFrom_total {A} (p : A -> Result bool) (l : list A) :
  (forall a, exists b, p a = Ok b) ->
  forall n, exists z, findIndexFrom p l n = Ok z.
Proof.
  intros Hp. induction l as [|a l IH]; intros n; simpl; [eauto|].
  destruct (Hp a) as (b & ->). destruct b; [eauto|apply IH].
Qed.

(** [getFocusIndices] returns whenever the selected index addresses a
    registered tab. *)
Lemma getFocusIndices_returns (ds : list Descendant) (fns : list Element)
    (sel : option Z) (d : Descendant) :
  getAt ds sel = Some d ->
  exists fi, getFocusIndices ds fns sel = Ok fi.
Proof.
  intros Hsel. unfold getFocusIndices, findIndex.
  destruct (findIndexFrom_total (isSelectedElement ds sel) fns) with (n := 0)
    as (z & ->); [|eauto].
  intros a. unfold isSelectedElement. rewrite Hsel. eauto.
Qed.

Lemma get_nil {A} (z : Z) : get (@nil A) z = None.
Proof.
  unfold get. destruct (z <? 0); [reflexivity|]. now destruct (Z.to_nat z).
Qed.

Lemma getFocusIndices_no_focusNodes (ds : list Descendant) (sel : option Z) :
  getFocusIndices ds [] sel = Ok (mkFocusIndices (-1) (-1) (-1) (-1)).
Proof.
  unfold getFocusIndices, findIndex. simpl.
  destruct (focusLoop_scan [] (-1) ds 0 (mkFocusIndices (-1) (-1) (-1) (-1)))
    as (H1 & H2 & H3 & H4).
  rewrite H1, H2, H3, H4. simpl. rewrite !get_nil.
  rewrite !scan_absent by discriminate. reflexivity.
Qed.

(** C9.  A key other than the five navigation keys is ignored in every
    state: nothing changes and the default action is not suppressed.
    ["ArrowDown"] first computes the focus indices like every navigation
    key.  When that returns (no tab is enabled, or the selected index
    addresses a registered tab) it suppresses the default action of the key
    and asks for focus on the selected panel, focusing its node when one is
    mounted, and requests no selection: the selected index and the
    user-interaction flag are as before and [onChange] is not called.  When
    the selected index addresses no registered tab while some tab is
    enabled, it throws a [TypeError] there: the default action is not
    suppressed and no panel is focused. *)
Theorem arrowDown_and_other_keys (w : Widget) :
  (forall key,
      key <> "ArrowLeft"%string -> key <> "ArrowRight"%string ->
      key <> "ArrowDown"%string -> key <> "Home"%string ->
      key <> "End"%string ->
      handleKeyDown key w = (Ok tt, w)) /\
  (focusNodes (tabs w) = [] \/
   (exists d, getAt (tabs w) (contextSelectedIndex w) = Some d) ->
   exists w',
     handleKeyDown "ArrowDown" w = (Ok tt, w') /\
     (emit PreventDefault ;; onFocusPanel) w = (Ok tt, w') /\
     trace w' =
       trace w ++ PreventDefault ::
         match selectedPanelRef w with
         | Some panel => [Focus panel]
         | None => []
         end /\
     selectedIndex w' = selectedIndex w /\
     contextSelectedIndex w' = contextSelectedIndex w /\
     userInteractedRef w' = userInteractedRef w /\
     onChangeCalls (trace w') = onChangeCalls (trace w)) /\
  (focusNodes (tabs w) <> [] ->
   getAt (tabs w) (contextSelectedIndex w) = None ->
   handleKeyDown "ArrowDown" w = (Throw TypeError, w)).
Proof.
  split; [|split].
  - intros key H1 H2 H3 H4 H5. unfold handleKeyDown, isNavigationKey.
    apply String.eqb_neq in H1, H2, H3, H4, H5.
    now rewrite H1, H2, H3, H4, H5.
  - intros Hret.
    assert (Hfi : exists fi,
               getFocusIndices (tabs w) (focusNodes (tabs w))
                 (contextSelectedIndex w) = Ok fi).
    { destruct Hret as [Hnil|(d & Hsel)].
      - rewrite Hnil, getFocusIndices_no_focusNodes. eauto.
      - now apply (getFocusIndices_returns _ _ _ d). }
    destruct Hfi as (fi & Hfi).
    destruct (handleKeyDown_navigation w fi Hfi) as (_ & _ & _ & _ & K).
    rewrite K. unfold onFocusPanel. run.
    destruct (selectedPanelRef w) as [panel|]; run;
      eexists; (split; [reflexivity|]); simpl;
      rewrite <- ?app_assoc, ?onChangeCalls_app; simpl;
      rewrite ?app_nil_r; repeat split.
  - intros Hfn Hsel. apply handleKeyDown_throw; [reflexivity|].
    unfold getFocusIndices, findIndex.
    destruct (focusNodes (tabs w)) as [|e l]; [congruence|].
    simpl. unfold isSelectedElement. now rewrite Hsel.
Qed.

Lemma arrowDown_and_other_keys_witness :
  focusNodes (tabs staleIndex) <> [] /\
  getAt (tabs staleIndex) (contextSelectedIndex staleIndex) = None /\
  handleKeyDown "ArrowDown" staleIndex = (Throw TypeError, staleIndex) /\
  trace staleIndex = [] /\
  (let w := mount (mkTabsProps None (Some 1) true false) threeTabs
              (Some 301%nat) in
   (exists d, getAt (tabs w) (contextSelectedIndex w) = Some d) /\
   exists w',
     handleKeyDown "ArrowDown" w = (Ok tt, w') /\
     trace w' = [PreventDefault; Focus 301%nat] /\
     selectedIndex w' = 1).
Proof.
  assert (H1 : focusNodes (tabs staleIndex) <> [])
    by (simpl; discriminate).
  destruct (arrowDown_and_other_keys staleIndex) as (_ & _ & T).
  split; [exact H1|]. split; [reflexivity|].
  split; [exact (T H1 eq_refl)|]. split; [reflexivity|].
  cbv zeta.
  assert (H2 : exists d,
             getAt (tabs (mount (mkTabsProps None (Some 1) true false)
                            threeTabs (Some 301%nat)))
               (contextSelectedIndex
                  (mount (mkTabsProps None (Some 1) true false)
                     threeTabs (Some 301%nat))) = Some d).
  { exists (mkDescendant 201%nat false). reflexivity. }
  split; [exact H2|].
  destruct (arrowDown_and_other_keys
              (mount (mkTabsProps None (Some 1) true false) threeTabs
                 (Some 301%nat))) as (_ & R & _).
  destruct (R (or_intror H2)) as (w' & E & _ & Tr & S & _).
  exists w'. repeat split; assumption.
Defined.

(** ** Registries without an enabled tab, and stale selected indices *)

(** C5.  With no enabled tab in the registry the selection keys do issue a
    select request: [getFocusIndices] returns [-1] for all four targets and
    [handleKeyDown] passes it on, so each of ["ArrowRight"], ["ArrowLeft"],
    ["Home"] and ["End"] runs [onSelectTab(-1)].  On a widget that is not
    read-only this sets the user-interaction flag, calls [onChange(-1)] and,
    when uncontrolled, makes [-1] the selected index.  No exception is
    raised. *)
Theorem no_enabled_tab_key_selects_minus_one (w : Widget) :
  focusNodes (tabs w) = [] ->
  getFocusIndices (tabs w) (focusNodes (tabs w)) (contextSelectedIndex w)
  = Ok (mkFocusIndices (-1) (-1) (-1) (-1)) /\
  handleKeyDown "ArrowRight" w = onSelectTab (-1) w /\
  handleKeyDown "ArrowLeft" w = onSelectTab (-1) w /\
  handleKeyDown "Home" w = onSelectTab (-1) w /\
  handleKeyDown "End" w = onSelectTab (-1) w.
Proof.
  intros H.
  assert (G : getFocusIndices (tabs w) (focusNodes (tabs w))
                (contextSelectedIndex w)
              = Ok (mkFocusIndices (-1) (-1) (-1) (-1))).
  { rewrite H. apply getFocusIndices_no_focusNodes. }
  split; [exact G|].
  destruct (handleKeyDown_navigation w _ G) as (K1 & K2 & K3 & K4 & _).
  auto.
Qed.

Lemma no_enabled_tab_key_selects_minus_one_witness :
  focusNodes (tabs oneDisabledTab) = [] /\
  handleKeyDown "ArrowRight" oneDisabledTab
  = onSelectTab (-1) oneDisabledTab /\
  let w' := snd (onSelectTab (-1) oneDisabledTab) in
  fst (onSelectTab (-1) oneDisabledTab) = Ok tt /\
  trace w' = [OnChange (-1)] /\
  userInteractedRef w' = true /\
  contextSelectedIndex w' = Some (-1).
Proof.
  split; [reflexivity|]. split; [|repeat split].
  apply (no_enabled_tab_key_selects_minus_one oneDisabledTab eq_refl).
Defined.

(** C7.  When the selected index addresses no registered tab while some tab
    is enabled, [getFocusIndices] reads [.element] of [undefined]: every
    navigation key makes [handleKeyDown] throw a [TypeError], before it
    prevents the default action or requests anything. *)
Theorem stale_index_key_throws (w : Widget) (key : string) :
  getAt (tabs w) (contextSelectedIndex w) = None ->
  focusNodes (tabs w) <> [] ->
  isNavigationKey key = true ->
  handleKeyDown key w = (Throw TypeError, w).
Proof.
  intros Hsel Hfn Hkey. apply handleKeyDown_throw; [exact Hkey|].
  unfold getFocusIndices, findIndex.
  destruct (focusNodes (tabs w)) as [|e l]; [congruence|].
  simpl. unfold isSelectedElement. now rewrite Hsel.
Qed.

Lemma stale_index_key_throws_witness :
  getAt (tabs staleIndex) (contextSelectedIndex staleIndex) = None /\
  focusNodes (tabs staleIndex) <> [] /\
  isNavigationKey "ArrowRight" = true /\
  handleKeyDown "ArrowRight" staleIndex = (Throw TypeError, staleIndex) /\
  handleKeyDown "ArrowDown" staleIndex = (Throw TypeError, staleIndex).
Proof.
  assert (H : focusNodes (tabs staleIndex) <> []) by (simpl; discriminate).
  split; [reflexivity|]. split; [exact H|]. split; [reflexivity|].
  split.
  - apply (stale_index_key_throws staleIndex "ArrowRight" eq_refl H eq_refl).
  - apply (stale_index_key_throws staleIndex "ArrowDown" eq_refl H eq_refl).
Defined.

(** ** Ids and ARIA attributes *)

(** C8.  For every group id, index and selected index, the tab rendered at
    that index has id [{groupId}-tab-{index}] and the panel has id
    [{groupId}-panel-{index}]; the tab's [aria-controls] is the id of the
    panel at the same index and the panel's [aria-labelledby] is the id of
    the tab at the same index; the tab's [tabIndex] is [0] when it is the
    selected one and [-1] otherwise; the panel is [hidden] exactly when it is
    not the selected one. *)
Theorem id_and_attribute_contract
    (groupId : string) (selected : option Z) (i : Z) (dis : bool) :
  let tab := renderTab groupId selected i dis in
  let panel := renderTabPanel groupId selected i in
  tab_id tab = (groupId ++ "-tab-" ++ numberToString i)%string /\
  panel_id panel = (groupId ++ "-panel-" ++ numberToString i)%string /\
  tab_aria_controls tab = panel_id panel /\
  panel_aria_labelledby panel = tab_id tab /\
  tab_aria_selected tab = sameIndex i selected /\
  tab_tabIndex tab = (if sameIndex i selected then 0 else -1) /\
  (panel_hidden panel = true <-> selected <> Some i) /\
  map (fun n => tab_id (renderTab "tabs-1" selected n dis)) [0; 1; 2]
  = ["tabs-1-tab-0"; "tabs-1-tab-1"; "tabs-1-tab-2"]%string /\
  map (fun n => panel_id (renderTabPanel "tabs-1" selected n)) [0; 1; 2]
  = ["tabs-1-panel-0"; "tabs-1-panel-1"; "tabs-1-panel-2"]%string.
Proof.
  cbv zeta. repeat split.
  - intros H E. subst selected. simpl in H.
    rewrite Z.eqb_refl in H. discriminate.
  - intros H. simpl. destruct selected as [z|]; simpl; [|reflexivity].
    destruct (Z.eqb_spec i z); [|reflexivity]. subst. congruence.
Qed.

(** ** The focus effect of [Tab] *)

Lemma tabUpdateEffects_unflagged (before : option Z) (ds : list Descendant) :
  forall n w,
    userInteractedRef w = false ->
    tabUpdateEffectsFrom before ds n w = (Ok tt, w).
Proof.
  induction ds as [|d rest IH]; intros n w Hf; simpl; [reflexivity|].
  unfold bind, tabUpdateEffect. rewrite Hf, andb_false_r.
  destruct (Bool.eqb _ _); simpl; now apply IH.
Qed.

Lemma tabUpdateEffects_unchanged (ds : list Descendant) :
  forall n w,
    tabUpdateEffectsFrom (contextSelectedIndex w) ds n w = (Ok tt, w).
Proof.
  induction ds as [|d rest IH]; intros n w; simpl; [reflexivity|].
  unfold bind. rewrite Bool.eqb_reflx. simpl. apply IH.
Qed.

Lemma tabUpdateEffects_focus (before : option Z) (j : Z) (d : Descendant)
    (ds : list Descendant) :
  sameIndex j before = false ->
  forall n w,
    contextSelectedIndex w = Some j ->
    userInteractedRef w = true ->
    n <= j ->
    nth_error ds (Z.to_nat (j - n)) = Some d ->
    tabUpdateEffectsFrom before ds n w = (Ok tt, focused w (element d)).
Proof.
  intros Hb. induction ds as [|d0 rest IH]; intros n w Hc Hf Hn Hd.
  - destruct (Z.to_nat (j - n)); discriminate.
  - simpl. unfold bind. rewrite Hc. simpl.
    destruct (Z.eqb_spec n j) as [->|Hne].
    + rewrite Hb. simpl. rewrite Hf. run.
      replace (j - j) with 0 in Hd by lia. simpl in Hd.
      inversion Hd; subst. now apply tabUpdateEffects_unflagged.
    + replace (Z.to_nat (j - n)) with (S (Z.to_nat (j - (n + 1)))) in Hd
        by lia.
      destruct (Bool.eqb _ _); simpl; apply IH; try assumption; lia.
Qed.

Lemma sameIndex_false (j : Z) (before : option Z) :
  before <> Some j -> sameIndex j before = false.
Proof.
  intros H. destruct before as [b|]; simpl; [|reflexivity].
  apply Z.eqb_neq. congruence.
Qed.

(** The effects of a render that moved the selection to the tab registered
    at [j] while the user-interaction flag was set. *)
Lemma tabUpdateEffects_moves_focus (w : Widget) (before : option Z) (j : Z)
    (d : Descendant) :
  contextSelectedIndex w = Some j ->
  before <> Some j ->
  get (tabs w) j = Some d ->
  userInteractedRef w = true ->
  tabUpdateEffects before w = (Ok tt, focused w (element d)).
Proof.
  intros Hc Hb Hd Hf. unfold tabUpdateEffects.
  unfold get in Hd. destruct (Z.ltb_spec j 0); [discriminate|].
  apply (tabUpdateEffects_focus before j d (tabs w)
           (sameIndex_false _ _ Hb)); try assumption.
  now rewrite Z.sub_0_r.
Qed.

(** C4.  After a selection change to the tab registered at [j]: if the
    user-interaction flag is set, the update effects focus that tab's node
    exactly once and clear the flag, leaving the selection as it is; if the
    flag is clear, as after a controlled index change with no user request
    before it, nothing is focused and nothing changes.  In particular a
    freshly mounted controlled widget whose owner supplies a new index
    focuses nothing. *)
Theorem focus_follows_user_interaction
    (w : Widget) (before : option Z) (j : Z) (d : Descendant) :
  contextSelectedIndex w = Some j ->
  before <> Some j ->
  get (tabs w) j = Some d ->
  (userInteractedRef w = true ->
   exists w',
     tabUpdateEffects before w = (Ok tt, w') /\
     trace w' = trace w ++ [Focus (element d)] /\
     focusCalls (trace w') = focusCalls (trace w) ++ [element d] /\
     userInteractedRef w' = false /\
     contextSelectedIndex w' = Some j /\
     tabUpdateEffects before w' = (Ok tt, w')) /\
  (userInteractedRef w = false ->
   tabUpdateEffects before w = (Ok tt, w)) /\
  (forall p ds panel i,
      let w0 := mount p ds panel in
      exists w1,
        (setProps (withControlledIndex p i) ;;
         tabUpdateEffects (contextSelectedIndex w0)) w0 = (Ok tt, w1) /\
        trace w1 = []).
Proof.
  intros Hc Hb Hd. split; [|split].
  - intros Hf. exists (focused w (element d)).
    split; [now apply (tabUpdateEffects_moves_focus w before j d)|].
    split; [reflexivity|].
    split; [simpl; now rewrite focusCalls_app|].
    split; [reflexivity|].
    split; [exact Hc|].
    now apply tabUpdateEffects_unflagged.
  - intros Hf. now apply tabUpdateEffects_unflagged.
  - intros p ds panel i. cbv zeta. run. eexists. split.
    + unfold tabUpdateEffects. now apply tabUpdateEffects_unflagged.
    + reflexivity.
Qed.

Lemma focus_follows_user_interaction_witness :
  let w := snd (onSelectTab 2
                  (mount (mkTabsProps None (Some 1) true false)
                     threeTabs None)) in
  contextSelectedIndex w = Some 2 /\
  Some 1 <> Some 2 /\
  get (tabs w) 2 = Some (mkDescendant 202%nat false) /\
  userInteractedRef w = true /\
  exists w',
    tabUpdateEffects (Some 1) w = (Ok tt, w') /\
    trace w' = [OnChange 2; Focus 202%nat] /\
    userInteractedRef w' = false.
Proof.
  cbv zeta.
  assert (H2 : Some 1 <> Some 2) by discriminate.
  destruct (focus_follows_user_interaction
              (snd (onSelectTab 2
                      (mount (mkTabsProps None (Some 1) true false)
                         threeTabs None)))
              (Some 1) 2 (mkDescendant 202%nat false)
              eq_refl H2 eq_refl) as (F & _).
  destruct (F eq_refl) as (w' & E & T & _ & U & _).
  repeat (split; [first [reflexivity | assumption]|]).
  exists w'. repeat split; assumption.
Defined.

(** The state a select request leaves behind on a widget that is not
    read-only. *)
Lemma onSelectTab_state (w : Widget) (i : Z) :
  readOnly (props w) = false ->
  exists w',
    onSelectTab i w = (Ok tt, w') /\
    props w' = props w /\
    isControlled w' = isControlled w /\
    tabs w' = tabs w /\
    selectedPanelRef w' = selectedPanelRef w /\
    userInteractedRef w' = true /\
    selectedIndex w' = (if isControlled w then selectedIndex w else i) /\
    trace w' = trace w ++ (if onChange (props w) then [OnChange i] else []).
Proof.
  intros Hro. unfold onSelectTab. rewrite Hro. run.
  destruct (onChange (props w)), (isControlled w); run;
    eexists; (split; [reflexivity|]); simpl;
    rewrite ?app_nil_r; repeat split.
Qed.

(** C10.  A select request for the index that is already selected sets the
    user-interaction flag and leaves the selection where it is, so no tab's
    update effect runs: nothing is focused and the flag stays set.  The next
    change of the selection to a different registered tab [j] then focuses
    that tab and clears the flag, also when that change is a new index
    supplied by the owner of a controlled widget, or the programmatic setter
    of an uncontrolled one. *)
Theorem same_index_request_keeps_flag (w : Widget) (i : Z) :
  readOnly (props w) = false ->
  contextSelectedIndex w = Some i ->
  exists w1,
    onSelectTab i w = (Ok tt, w1) /\
    contextSelectedIndex w1 = Some i /\
    userInteractedRef w1 = true /\
    focusCalls (trace w1) = focusCalls (trace w) /\
    tabUpdateEffects (contextSelectedIndex w) w1 = (Ok tt, w1) /\
    forall j d,
      j <> i ->
      get (tabs w) j = Some d ->
      (isControlled w = true ->
       exists w2,
         (setProps (withControlledIndex (props w1) (Some j)) ;;
          tabUpdateEffects (Some i)) w1 = (Ok tt, w2) /\
         contextSelectedIndex w2 = Some j /\
         focusCalls (trace w2) = focusCalls (trace w1) ++ [element d] /\
         userInteractedRef w2 = false) /\
      (isControlled w = false ->
       exists w2,
         (contextSetSelectedIndex j ;; tabUpdateEffects (Some i)) w1
         = (Ok tt, w2) /\
         contextSelectedIndex w2 = Some j /\
         focusCalls (trace w2) = focusCalls (trace w1) ++ [element d] /\
         userInteractedRef w2 = false).
Proof.
  intros Hro Hc.
  destruct (onSelectTab_state w i Hro)
    as (w1 & E & Hp & Hi & Ht & _ & Hf & Hs & Htr).
  exists w1.
  assert (Hc1 : contextSelectedIndex w1 = Some i).
  { revert Hc. unfold contextSelectedIndex. rewrite Hi, Hp, Hs.
    now destruct (isControlled w). }
  repeat (split; [assumption|]).
  split.
  { rewrite Htr, focusCalls_app.
    destruct (onChange (props w)); simpl; now rewrite app_nil_r. }
  split.
  { rewrite Hc, <- Hc1. apply tabUpdateEffects_unchanged. }
  intros j d Hj Hd.
  assert (Hb : Some i <> Some j) by congruence.
  split; intros Hctl.
  - set (w' := snd (setProps (withControlledIndex (props w1) (Some j)) w1)).
    exists (focused w' (element d)).
    assert (Hc' : contextSelectedIndex w' = Some j).
    { unfold contextSelectedIndex, w'. simpl. now rewrite Hi, Hctl. }
    split.
    + change ((setProps (withControlledIndex (props w1) (Some j)) ;;
               tabUpdateEffects (Some i)) w1)
        with (tabUpdateEffects (Some i) w').
      apply (tabUpdateEffects_moves_focus w' (Some i) j d Hc' Hb);
        [|exact Hf].
      unfold w'. simpl. now rewrite Ht.
    + repeat split; [exact Hc'|]. simpl. now rewrite focusCalls_app.
  - set (w' := snd (setSelectedIndex j w1)).
    exists (focused w' (element d)).
    assert (Hc' : contextSelectedIndex w' = Some j).
    { unfold contextSelectedIndex, w'. simpl. now rewrite Hi, Hctl. }
    split.
    + unfold bind, contextSetSelectedIndex. rewrite Hi, Hctl.
      change (let (r, w'0) := setSelectedIndex j w1 in
              match r with
              | Ok _ => tabUpdateEffects (Some i) w'0
              | Throw e => (Throw e, w'0)
              end)
        with (tabUpdateEffects (Some i) w').
      apply (tabUpdateEffects_moves_focus w' (Some i) j d Hc' Hb);
        [|exact Hf].
      unfold w'. simpl. now rewrite Ht.
    + repeat split; [exact Hc'|]. simpl. now rewrite focusCalls_app.
Qed.

Lemma same_index_request_keeps_flag_witness :
  readOnly (props controlledAtOne) = false /\
  contextSelectedIndex controlledAtOne = Some 1 /\
  exists w1 w2,
    onSelectTab 1 controlledAtOne = (Ok tt, w1) /\
    focusCalls (trace w1) = [] /\
    userInteractedRef w1 = true /\
    (setProps (withControlledIndex (props w1) (Some 2)) ;;
     tabUpdateEffects (Some 1)) w1 = (Ok tt, w2) /\
    focusCalls (trace w2) = [202%nat].
Proof.
  split; [reflexivity|]. split; [reflexivity|].
  destruct (same_index_request_keeps_flag controlledAtOne 1 eq_refl eq_refl)
    as (w1 & E & _ & F & T & _ & N).
  assert (H : 2 <> 1) by discriminate.
  destruct (N 2 (mkDescendant 202%nat false) H eq_refl) as (C & _).
  destruct (C eq_refl) as (w2 & E2 & _ & T2 & _).
  exists w1, w2. repeat (split; [assumption|]).
  rewrite T2, T. reflexivity.
Defined.

(** ** The layout effect of [TabList] *)

(** C3.  On an uncontrolled widget whose selected tab is disabled, with
    distinct nodes and at least one enabled tab, the layout effect sets the
    selected index to the navigator's [next] target.  The selected tab is
    not among the enabled ones, so none follows it there and the target is
    the first enabled tab; for tabs [disabled, enabled, enabled] mounted with
    the default selection 0 it is 1.  The effect calls only the state
    setter: it leaves the user-interaction flag and the trace alone.  The
    update effects of the corrected render focus nothing when the flag is
    clear.  When an earlier select request left the flag set, they focus the
    node of the corrected tab and clear the flag: the correction, which no
    user initiated, then moves input focus. *)
Theorem disabled_selection_corrected (w : Widget) (d : Descendant) :
  isControlled w = false ->
  NoDup (map element (tabs w)) ->
  get (tabs w) (selectedIndex w) = Some d ->
  disabled d = true ->
  enabledIndices (tabs w) <> [] ->
  (exists fi w',
      getFocusIndices (tabs w) (focusNodes (tabs w)) (contextSelectedIndex w)
      = Ok fi /\
      tabListLayoutEffect w = (Ok tt, w') /\
      contextSelectedIndex w' = Some (next fi) /\
      Some (next fi) = specNext (enabledIndices (tabs w)) (selectedIndex w) /\
      Some (next fi) = specFirst (enabledIndices (tabs w)) /\
      enabledAt (tabs w) (next fi) /\
      userInteractedRef w' = userInteractedRef w /\
      trace w' = trace w /\
      (userInteractedRef w = false ->
       tabUpdateEffects (contextSelectedIndex w) w' = (Ok tt, w')) /\
      (userInteractedRef w = true ->
       exists dn w'',
         get (tabs w) (next fi) = Some dn /\
         (tabListLayoutEffect ;; tabUpdateEffects (contextSelectedIndex w)) w
         = (Ok tt, w'') /\
         trace w'' = trace w ++ [Focus (element dn)] /\
         focusCalls (trace w'') = focusCalls (trace w) ++ [element dn] /\
         userInteractedRef w'' = false /\
         contextSelectedIndex w'' = Some (next fi))) /\
  (let w0 := mount (mkTabsProps None None true false) threeTabs None in
   (tabListLayoutEffect ;; tabUpdateEffects (contextSelectedIndex w0)) w0
   = (Ok tt,
      mkWidget (mkTabsProps None None true false) false false None 1
        threeTabs [])).
Proof.
  intros Hctl Hnd Hd Hdis Hne. split; [|reflexivity].
  assert (Hc : contextSelectedIndex w = Some (selectedIndex w)).
  { unfold contextSelectedIndex. now rewrite Hctl. }
  pose proof (getFocusIndices_navigate _ _ _ Hnd Hd) as Hg.
  destruct (navigate_spec (enabledIndices (tabs w)) (selectedIndex w)
              (enabledIndices_nonneg (tabs w)) Hne) as (_ & _ & _ & Hn).
  set (fi := navigate (enabledIndices (tabs w)) (selectedIndex w)) in *.
  assert (Hfirst : specNext (enabledIndices (tabs w)) (selectedIndex w)
                   = specFirst (enabledIndices (tabs w))).
  { unfold specNext. rewrite positionOf_absent; [reflexivity|].
    intros Hin. destruct (enabledIndices_enabledAt _ _ Hin) as (d' & H1 & H2).
    congruence. }
  assert (Hrun : tabListLayoutEffect w = setSelectedIndex (next fi) w).
  { unfold tabListLayoutEffect. rewrite Hctl, Hc.
    cbn [negb andb getAt]. rewrite Hd, Hdis.
    unfold bind, liftResult. rewrite Hg.
    unfold contextSetSelectedIndex. now rewrite Hctl. }
  assert (Hen : enabledAt (tabs w) (next fi)).
  { apply enabledIndices_enabledAt. rewrite Hfirst in Hn.
    unfold specFirst in Hn.
    destruct (enabledIndices (tabs w)) as [|r l]; [discriminate|].
    inversion Hn. now left. }
  set (w1 := snd (setSelectedIndex (next fi) w)).
  assert (Hc1 : contextSelectedIndex w1 = Some (next fi)).
  { unfold contextSelectedIndex. simpl. now rewrite Hctl. }
  exists fi, w1.
  split; [now rewrite Hc|].
  split; [exact Hrun|].
  split; [exact Hc1|].
  split; [exact Hn|].
  split; [congruence|].
  split; [exact Hen|].
  split; [reflexivity|].
  split; [reflexivity|].
  split.
  { intros Hf. unfold tabUpdateEffects. now apply tabUpdateEffects_unflagged. }
  intros Hf. destruct Hen as (dn & Hdn & Hdn').
  exists dn, (focused w1 (element dn)).
  split; [exact Hdn|].
  split.
  { unfold bind. rewrite Hrun. cbn [setSelectedIndex]. fold w1.
    apply (tabUpdateEffects_moves_focus w1 _ (next fi) dn Hc1);
      [|exact Hdn|exact Hf].
    rewrite Hc. intros E. inversion E as [E']. rewrite E' in Hd.
    congruence. }
  split; [reflexivity|].
  split; [simpl; now rewrite focusCalls_app|].
  split; [reflexivity|exact Hc1].
Qed.

Lemma disabled_selection_corrected_witness :
  isControlled clickedThenDisabled = false /\
  NoDup (map element (tabs clickedThenDisabled)) /\
  get (tabs clickedThenDisabled) (selectedIndex clickedThenDisabled)
  = Some (mkDescendant 600%nat true) /\
  enabledIndices (tabs clickedThenDisabled) <> [] /\
  userInteractedRef clickedThenDisabled = true /\
  focusCalls (trace clickedThenDisabled) = [] /\
  exists w'',
    (tabListLayoutEffect ;;
     tabUpdateEffects (contextSelectedIndex clickedThenDisabled))
      clickedThenDisabled = (Ok tt, w'') /\
    contextSelectedIndex w'' = Some 1 /\
    focusCalls (trace w'') = [601%nat].
Proof.
  assert (H2 : NoDup (map element (tabs clickedThenDisabled))).
  { simpl. repeat constructor; simpl; intuition discriminate. }
  assert (H5 : enabledIndices (tabs clickedThenDisabled) <> [])
    by (simpl; discriminate).
  split; [reflexivity|]. split; [exact H2|]. split; [reflexivity|].
  split; [exact H5|]. split; [reflexivity|]. split; [reflexivity|].
  destruct (disabled_selection_corrected clickedThenDisabled
              (mkDescendant 600%nat true) eq_refl H2 eq_refl eq_refl H5)
    as ((fi & w' & Hg & _ & _ & _ & _ & _ & _ & _ & _ & F) & _).
  destruct (F eq_refl) as (dn & w'' & Hdn & E & _ & T & _ & C).
  exists w''. split; [exact E|].
  assert (Hfi : fi = mkFocusIndices 1 1 1 1).
  { assert (G : Ok fi = Ok (mkFocusIndices 1 1 1 1))
      by (rewrite <- Hg; reflexivity).
    now inversion G. }
  subst fi. simpl in Hdn. inversion Hdn; subst dn.
  split; [exact C|exact T].
Defined.

(** * Further properties of the component *)

(** ** When [getFocusIndices] throws *)

(** X1.  [getFocusIndices] throws exactly when some focus node exists and the
    selected index addresses no descendant; with no focus node the
    [findIndex] callback never runs and the stale index goes unnoticed. *)
Theorem getFocusIndices_throws_iff
    (ds : list Descendant) (fns : list Element) (sel : option Z) :
  (getFocusIndices ds fns sel = Throw TypeError <->
   fns <> [] /\ getAt ds sel = None) /\
  ((exists fi, getFocusIndices ds fns sel = Ok fi) <->
   fns = [] \/ exists d, getAt ds sel = Some d).
Proof.
  destruct (getAt ds sel) as [d|] eqn:Hsel.
  - destruct (getFocusIndices_returns ds fns sel d Hsel) as (fi & Hfi).
    split; split.
    + rewrite Hfi. discriminate.
    + intros (_ & H). discriminate.
    + intros _. right. now exists d.
    + intros _. now exists fi.
  - destruct fns as [|e l].
    + rewrite getFocusIndices_no_focusNodes. split; split.
      * discriminate.
      * intros (H & _). congruence.
      * intros _. now left.
      * intros _. eauto.
    + assert (T : getFocusIndices ds (e :: l) sel = Throw TypeError).
      { unfold getFocusIndices, findIndex. simpl.
        unfold isSelectedElement. now rewrite Hsel. }
      rewrite T. split; split.
      * intros _. split; [discriminate|reflexivity].
      * reflexivity.
      * intros (fi & H). discriminate.
      * intros [H|(d & H)]; discriminate.
Qed.

(** ** The enabled raw indices *)

Lemma enabledFrom_lower (ds : list Descendant) :
  forall n r, In r (enabledFrom ds n) -> n <= r.
Proof.
  induction ds as [|d rest IH]; intros n r Hin; [destruct Hin|].
  simpl in Hin. destruct (disabled d).
  - specialize (IH _ _ Hin). lia.
  - destruct Hin as [<-|Hin]; [lia|]. specialize (IH _ _ Hin). lia.
Qed.

Lemma enabledFrom_In (ds : list Descendant) :
  forall n k d,
    nth_error ds k = Some d -> disabled d = false ->
    In (n + Z.of_nat k) (enabledFrom ds n).
Proof.
  induction ds as [|d0 rest IH]; intros n k d Hk Hd.
  - destruct k; discriminate.
  - simpl. destruct k as [|k]; simpl in Hk.
    + inversion Hk; subst. rewrite Hd. left. lia.
    + specialize (IH (n + 1) k d Hk Hd).
      replace (n + Z.of_nat (S k)) with (n + 1 + Z.of_nat k) by lia.
      destruct (disabled d0); [exact IH|now right].
Qed.

Lemma enabledAt_In (ds : list Descendant) (r : Z) :
  enabledAt ds r -> In r (enabledIndices ds).
Proof.
  intros (d & Hd & Hdis). unfold get in Hd.
  destruct (Z.ltb_spec r 0); [discriminate|].
  replace r with (0 + Z.of_nat (Z.to_nat r)) by lia.
  now apply (enabledFrom_In ds 0 _ d).
Qed.

Lemma enabledFrom_sorted (ds : list Descendant) :
  forall n, Sorted.StronglySorted Z.lt (enabledFrom ds n).
Proof.
  induction ds as [|d rest IH]; intros n; simpl; [constructor|].
  destruct (disabled d); [apply IH|].
  constructor; [apply IH|].
  apply Forall_forall. intros r Hr.
  apply enabledFrom_lower in Hr. lia.
Qed.

Lemma sorted_nth_le (l : list Z) :
  Sorted.StronglySorted Z.lt l ->
  forall i j x y,
    nth_error l i = Some x -> nth_error l j = Some y ->
    (i <= j)%nat -> x <= y.
Proof.
  induction 1 as [|a l Hs IH Hall]; intros i j x y Hi Hj Hij.
  - destruct i; discriminate.
  - destruct i as [|i], j as [|j]; simpl in *; try lia.
    + inversion Hi; inversion Hj; subst. lia.
    + inversion Hi; subst.
      rewrite Forall_forall in Hall.
      specialize (Hall y (nth_error_In _ _ Hj)). lia.
    + apply (IH i j); try assumption. lia.
Qed.

Lemma sorted_NoDup (l : list Z) : Sorted.StronglySorted Z.lt l -> NoDup l.
Proof.
  induction 1 as [|a l Hs IH Hall]; constructor; [|exact IH].
  intros Hin. rewrite Forall_forall in Hall. specialize (Hall a Hin). lia.
Qed.

Lemma enabledIndices_NoDup (ds : list Descendant) :
  NoDup (enabledIndices ds).
Proof. apply sorted_NoDup, enabledFrom_sorted. Qed.

(** ** The targets in the specification's words *)

Lemma hd_error_nth {A} (l : list A) : hd_error l = nth_error l 0.
Proof. now destruct l. Qed.

Lemma specFirst_In (en : list Z) (v : Z) : specFirst en = Some v -> In v en.
Proof.
  destruct en as [|a l]; simpl; [discriminate|].
  intros H. inversion H. now left.
Qed.

Lemma specLast_In (en : list Z) (v : Z) : specLast en = Some v -> In v en.
Proof.
  unfold specLast. intros H. apply in_rev.
  destruct (rev en) as [|a l]; simpl in H; [discriminate|].
  inversion H. now left.
Qed.

Lemma specNext_In (en : list Z) (sel v : Z) :
  specNext en sel = Some v -> In v en.
Proof.
  unfold specNext. destruct (positionOf sel en) as [k|].
  - destruct (nth_error en (S k)) as [r|] eqn:Hr.
    + intros H. inversion H; subst. eapply nth_error_In; eauto.
    + apply specFirst_In.
  - apply specFirst_In.
Qed.

Lemma specPrev_In (en : list Z) (sel v : Z) :
  specPrev en sel = Some v -> In v en.
Proof.
  unfold specPrev. destruct (positionOf sel en) as [[|k]|].
  - apply specLast_In.
  - apply nth_error_In.
  - apply specLast_In.
Qed.

Lemma navigate_targets (en : list Z) (sel : Z) :
  (forall x, In x en -> 0 <= x) ->
  en <> [] ->
  let fi := navigate en sel in
  In (first fi) en /\ In (last fi) en /\ In (prev fi) en /\ In (next fi) en.
Proof.
  intros Hpos Hne. cbv zeta.
  destruct (navigate_spec en sel Hpos Hne) as (H1 & H2 & H3 & H4).
  repeat split.
  - now apply specFirst_In.
  - now apply specLast_In.
  - now apply (specPrev_In _ sel).
  - now apply (specNext_In _ sel).
Qed.

(** X2.  Keyboard navigation never targets a disabled tab: for distinct nodes, a
    selected index that addresses a registered tab and at least one enabled
    tab, each of [first], [last], [prev] and [next] addresses a registered
    tab that is not disabled. *)
Theorem navigation_targets_enabled
    (ds : list Descendant) (sel : Z) (d : Descendant) :
  NoDup (map element ds) ->
  get ds sel = Some d ->
  enabledIndices ds <> [] ->
  exists fi,
    getFocusIndices ds (focusNodes ds) (Some sel) = Ok fi /\
    enabledAt ds (first fi) /\
    enabledAt ds (last fi) /\
    enabledAt ds (prev fi) /\
    enabledAt ds (next fi).
Proof.
  intros Hnd Hsel Hne. exists (navigate (enabledIndices ds) sel).
  split; [now apply (getFocusIndices_navigate ds sel d)|].
  destruct (navigate_targets (enabledIndices ds) sel
              (enabledIndices_nonneg ds) Hne) as (H1 & H2 & H3 & H4).
  repeat split; now apply enabledIndices_enabledAt.
Qed.

Lemma navigation_targets_enabled_witness :
  NoDup (map element fourTabs) /\
  get fourTabs 1 = Some (mkDescendant 101%nat true) /\
  enabledIndices fourTabs <> [] /\
  exists fi,
    getFocusIndices fourTabs (focusNodes fourTabs) (Some 1) = Ok fi /\
    enabledAt fourTabs (next fi).
Proof.
  assert (H1 : NoDup (map element fourTabs)).
  { simpl. repeat constructor; simpl; intuition discriminate. }
  assert (H3 : enabledIndices fourTabs <> []) by (simpl; discriminate).
  split; [exact H1|]. split; [reflexivity|]. split; [exact H3|].
  destruct (navigation_targets_enabled fourTabs 1 _ H1 eq_refl H3)
    as (fi & Hg & _ & _ & _ & Hn).
  exists fi. split; assumption.
Defined.

(** X3.  ["Home"] and ["End"] go to the two ends of the enabled tabs: [first] is
    the smallest and [last] the largest raw index of an enabled tab, whatever
    the selected index is. *)
Theorem home_end_extremes
    (ds : list Descendant) (sel : Z) (d : Descendant) :
  NoDup (map element ds) ->
  get ds sel = Some d ->
  exists fi,
    getFocusIndices ds (focusNodes ds) (Some sel) = Ok fi /\
    forall r, enabledAt ds r -> first fi <= r <= last fi.
Proof.
  intros Hnd Hsel. exists (navigate (enabledIndices ds) sel).
  split; [now apply (getFocusIndices_navigate ds sel d)|].
  intros r Hr. apply enabledAt_In in Hr.
  assert (Hne : enabledIndices ds <> []).
  { intros E. rewrite E in Hr. destruct Hr. }
  destruct (navigate_spec (enabledIndices ds) sel
              (enabledIndices_nonneg ds) Hne) as (H1 & H2 & _ & _).
  destruct (In_nth_error _ _ Hr) as (k & Hk).
  pose proof (enabledFrom_sorted ds 0) as Hs.
  fold (enabledIndices ds) in Hs.
  split.
  - unfold specFirst in H1. rewrite hd_error_nth in H1.
    apply (sorted_nth_le _ Hs 0%nat k); auto. lia.
  - rewrite <- get_last in H2.
    assert (Hlt : (k < List.length (enabledIndices ds))%nat).
    { apply nth_error_Some. congruence. }
    replace (length (enabledIndices ds) - 1)
      with (Z.of_nat (List.length (enabledIndices ds) - 1)) in H2
      by (unfold length; lia).
    rewrite get_nth_error in H2.
    apply (sorted_nth_le _ Hs k (List.length (enabledIndices ds) - 1));
      auto. lia.
Qed.

Lemma home_end_extremes_witness :
  NoDup (map element fourTabs) /\
  get fourTabs 2 = Some (mkDescendant 102%nat false) /\
  exists fi,
    getFocusIndices fourTabs (focusNodes fourTabs) (Some 2) = Ok fi /\
    first fi <= 3 <= last fi.
Proof.
  assert (H1 : NoDup (map element fourTabs)).
  { simpl. repeat constructor; simpl; intuition discriminate. }
  split; [exact H1|]. split; [reflexivity|].
  destruct (home_end_extremes fourTabs 2 _ H1 eq_refl) as (fi & Hg & Hr).
  exists fi. split; [exact Hg|].
  apply Hr. exists (mkDescendant 103%nat false). split; reflexivity.
Defined.

(** ** Right and left are inverse to each other *)

Lemma positionOf_nth_error (sel : Z) (en : list Z) :
  forall k, positionOf sel en = Some k -> nth_error en k = Some sel.
Proof.
  induction en as [|r rest IH]; intros k; simpl; [discriminate|].
  destruct (Z.eqb_spec r sel) as [->|_].
  - intros H. inversion H. reflexivity.
  - destruct (positionOf sel rest) as [k'|]; simpl; [|discriminate].
    intros H. inversion H. simpl. now apply IH.
Qed.

Lemma positionOf_of_nth (en : list Z) :
  NoDup en ->
  forall k x, nth_error en k = Some x -> positionOf x en = Some k.
Proof.
  induction 1 as [|a l Hnotin Hnd IH]; intros k x Hk.
  - destruct k; discriminate.
  - simpl. destruct k as [|k]; simpl in Hk.
    + inversion Hk; subst. now rewrite Z.eqb_refl.
    + destruct (Z.eqb_spec a x) as [->|_].
      * exfalso. apply Hnotin. eapply nth_error_In; eauto.
      * now rewrite (IH k x Hk).
Qed.

Lemma positionOf_In (sel : Z) (en : list Z) :
  In sel en -> exists k, positionOf sel en = Some k.
Proof.
  intros Hin. destruct (positionOf sel en) as [k|] eqn:E; [eauto|].
  exfalso. revert E. induction en as [|r rest IH]; [destruct Hin|].
  simpl. destruct (Z.eqb_spec r sel) as [->|Hne]; [discriminate|].
  destruct Hin as [->|Hin]; [congruence|].
  destruct (positionOf sel rest); [discriminate|]. intros _. now apply IH.
Qed.

Lemma specLast_nth (en : list Z) :
  specLast en = nth_error en (List.length en - 1).
Proof.
  rewrite <- get_last. destruct en as [|a l]; [reflexivity|].
  replace (length (a :: l) - 1) with (Z.of_nat (List.length (a :: l) - 1))
    by (unfold length; cbn [List.length]; lia).
  apply get_nth_error.
Qed.

Lemma specNext_specPrev (en : list Z) (sel x : Z) :
  NoDup en -> In sel en ->
  specNext en sel = Some x -> specPrev en x = Some sel.
Proof.
  intros Hnd Hin. destruct (positionOf_In _ _ Hin) as (k & Hk).
  pose proof (positionOf_nth_error _ _ _ Hk) as Hsel.
  pose proof (positionOf_lt _ _ _ Hk) as Hlt.
  unfold specNext, specPrev. rewrite Hk.
  destruct (nth_error en (S k)) as [r|] eqn:Hr.
  - intros H. inversion H; subst.
    now rewrite (positionOf_of_nth en Hnd _ _ Hr).
  - unfold specFirst. rewrite hd_error_nth. intros H0.
    rewrite (positionOf_of_nth en Hnd _ _ H0).
    rewrite specLast_nth. apply nth_error_None in Hr.
    now replace (List.length en - 1)%nat with k by lia.
Qed.

Lemma specPrev_specNext (en : list Z) (sel x : Z) :
  NoDup en -> In sel en ->
  specPrev en sel = Some x -> specNext en x = Some sel.
Proof.
  intros Hnd Hin. destruct (positionOf_In _ _ Hin) as (k & Hk).
  pose proof (positionOf_nth_error _ _ _ Hk) as Hsel.
  pose proof (positionOf_lt _ _ _ Hk) as Hlt.
  unfold specNext, specPrev. rewrite Hk.
  destruct k as [|k].
  - rewrite specLast_nth. intros Hx.
    rewrite (positionOf_of_nth en Hnd _ _ Hx).
    replace (S (List.length en - 1)) with (List.length en) by lia.
    assert (E : nth_error en (List.length en) = None)
      by (apply nth_error_None; lia).
    rewrite E. unfold specFirst. now rewrite hd_error_nth.
  - intros Hx. rewrite (positionOf_of_nth en Hnd _ _ Hx). now rewrite Hsel.
Qed.

(** X4.  Moving right and then left, or left and then right, comes back to the
    selected tab: for distinct nodes and a selected tab that is enabled,
    [prev] computed at the [next] target and [next] computed at the [prev]
    target are both the selected index. *)
Theorem next_prev_round_trip (ds : list Descendant) (sel : Z) :
  NoDup (map element ds) ->
  enabledAt ds sel ->
  exists fi fright fleft,
    getFocusIndices ds (focusNodes ds) (Some sel) = Ok fi /\
    getFocusIndices ds (focusNodes ds) (Some (next fi)) = Ok fright /\
    prev fright = sel /\
    getFocusIndices ds (focusNodes ds) (Some (prev fi)) = Ok fleft /\
    next fleft = sel.
Proof.
  intros Hnd Hen. pose proof (enabledAt_In _ _ Hen) as Hin.
  destruct Hen as (d & Hd & _).
  assert (Hne : enabledIndices ds <> []).
  { intros E. rewrite E in Hin. destruct Hin. }
  pose proof (enabledIndices_NoDup ds) as Hnd'.
  set (en := enabledIndices ds) in *.
  destruct (navigate_spec en sel (enabledIndices_nonneg ds) Hne)
    as (_ & _ & Hp & Hn).
  symmetry in Hp, Hn.
  destruct (enabledIndices_enabledAt ds _ (specNext_In _ _ _ Hn))
    as (dn & Hdn & _).
  destruct (enabledIndices_enabledAt ds _ (specPrev_In _ _ _ Hp))
    as (dp & Hdp & _).
  exists (navigate en sel), (navigate en (next (navigate en sel))),
    (navigate en (prev (navigate en sel))).
  split; [now apply (getFocusIndices_navigate ds sel d)|].
  split; [now apply (getFocusIndices_navigate ds _ dn)|].
  split.
  { destruct (navigate_spec en (next (navigate en sel))
                (enabledIndices_nonneg ds) Hne) as (_ & _ & Hp' & _).
    rewrite (specNext_specPrev en sel _ Hnd' Hin Hn) in Hp'. congruence. }
  split; [now apply (getFocusIndices_navigate ds _ dp)|].
  destruct (navigate_spec en (prev (navigate en sel))
              (enabledIndices_nonneg ds) Hne) as (_ & _ & _ & Hn').
  rewrite (specPrev_specNext en sel _ Hnd' Hin Hp) in Hn'. congruence.
Qed.

Lemma next_prev_round_trip_witness :
  NoDup (map element fourTabs) /\
  enabledAt fourTabs 3 /\
  exists fi fright,
    getFocusIndices fourTabs (focusNodes fourTabs) (Some 3) = Ok fi /\
    getFocusIndices fourTabs (focusNodes fourTabs) (Some (next fi))
    = Ok fright /\
    prev fright = 3.
Proof.
  assert (H1 : NoDup (map element fourTabs)).
  { simpl. repeat constructor; simpl; intuition discriminate. }
  assert (H2 : enabledAt fourTabs 3).
  { exists (mkDescendant 103%nat false). split; reflexivity. }
  split; [exact H1|]. split; [exact H2|].
  destruct (next_prev_round_trip fourTabs 3 H1 H2)
    as (fi & fr & _ & A & B & C & _).
  exists fi, fr. repeat split; assumption.
Defined.

(** ** The update effects in closed form *)



(** ** Key presses on an uncontrolled widget *)

Lemma onSelectTab_uncontrolled (w : Widget) (i : Z) :
  isControlled w = false ->
  exists w',
    onSelectTab i w = (Ok tt, w') /\
    props w' = props w /\
    isControlled w' = false /\
    tabs w' = tabs w /\
    selectedIndex w' = (if readOnly (props w) then selectedIndex w else i).
Proof.
  intros Hctl. destruct (readOnly (props w)) eqn:Hro.
  - exists w. unfold onSelectTab. rewrite Hro. repeat split. exact Hctl.
  - destruct (onSelectTab_state w i Hro)
      as (w' & E & Hp & Hi & Ht & _ & _ & Hs & _).
    exists w'. rewrite Hctl in Hs, Hi. repeat split; assumption.
Qed.

Lemma isNavigationKey_cases (key : string) :
  isNavigationKey key = true ->
  key = "ArrowLeft"%string \/ key = "ArrowRight"%string \/
  key = "ArrowDown"%string \/ key = "Home"%string \/ key = "End"%string.
Proof.
  unfold isNavigationKey. rewrite !orb_true_iff, !String.eqb_eq. tauto.
Qed.

Lemma handleKeyDown_wellSelected (w : Widget) (key : string) :
  isControlled w = false ->
  NoDup (map element (tabs w)) ->
  enabledAt (tabs w) (selectedIndex w) ->
  exists w',
    handleKeyDown key w = (Ok tt, w') /\
    isControlled w' = false /\
    tabs w' = tabs w /\
    enabledAt (tabs w') (selectedIndex w').
Proof.
  intros Hctl Hnd Hen.
  destruct (isNavigationKey key) eqn:Hk.
  2:{ exists w. unfold handleKeyDown. rewrite Hk. repeat split; assumption. }
  pose proof (enabledAt_In _ _ Hen) as Hin.
  assert (Hne : enabledIndices (tabs w) <> []).
  { intros E. rewrite E in Hin. destruct Hin. }
  destruct Hen as (d & Hd & Hdis).
  pose proof (getFocusIndices_navigate _ _ _ Hnd Hd) as Hg.
  destruct (navigate_targets (enabledIndices (tabs w)) (selectedIndex w)
              (enabledIndices_nonneg (tabs w)) Hne) as (T1 & T2 & T3 & T4).
  apply enabledIndices_enabledAt in T1, T2, T3, T4.
  set (fi := navigate (enabledIndices (tabs w)) (selectedIndex w)) in *.
  assert (Hc : contextSelectedIndex w = Some (selectedIndex w)).
  { unfold contextSelectedIndex. now rewrite Hctl. }
  rewrite <- Hc in Hg.
  destruct (handleKeyDown_navigation w fi Hg) as (K1 & K2 & K3 & K4 & K5).
  assert (Sel : forall t, enabledAt (tabs w) t ->
                exists w',
                  onSelectTab t w = (Ok tt, w') /\
                  isControlled w' = false /\
                  tabs w' = tabs w /\
                  enabledAt (tabs w') (selectedIndex w')).
  { intros t Ht.
    destruct (onSelectTab_uncontrolled w t Hctl)
      as (w' & E & _ & Hi & Htabs & Hs).
    exists w'. repeat (split; [assumption|]). rewrite Htabs, Hs.
    destruct (readOnly (props w)); [now exists d|exact Ht]. }
  destruct (isNavigationKey_cases key Hk) as [-> | [-> | [-> | [-> | ->]]]].
  - rewrite K2. now apply Sel.
  - rewrite K1. now apply Sel.
  - rewrite K5. unfold onFocusPanel. run.
    destruct (selectedPanelRef w); run; eexists;
      (split; [reflexivity|]); simpl; repeat split;
      try assumption; now exists d.
  - rewrite K3. now apply Sel.
  - rewrite K4. now apply Sel.
Qed.

(** X6.  On an uncontrolled widget with distinct nodes whose selected tab is
    registered and enabled, no sequence of key presses throws, and after it
    the selected tab is again registered and enabled. *)
Theorem key_presses_keep_selection_enabled (keys : list string) :
  forall w,
    isControlled w = false ->
    NoDup (map element (tabs w)) ->
    enabledAt (tabs w) (selectedIndex w) ->
    exists w',
      pressAll keys w = (Ok tt, w') /\
      tabs w' = tabs w /\
      enabledAt (tabs w') (selectedIndex w').
Proof.
  induction keys as [|key rest IH]; intros w Hctl Hnd Hen.
  - exists w. repeat split. exact Hen.
  - destruct (handleKeyDown_wellSelected w key Hctl Hnd Hen)
      as (w1 & E1 & Hc1 & Ht1 & He1).
    rewrite <- Ht1 in Hnd.
    destruct (IH w1 Hc1 Hnd He1) as (w' & E & Ht & He).
    exists w'. simpl. unfold bind. rewrite E1.
    repeat split; [exact E|congruence|exact He].
Qed.

Lemma key_presses_keep_selection_enabled_witness :
  let w := mount (mkTabsProps None (Some 2) true false) fourTabs None in
  isControlled w = false /\
  NoDup (map element (tabs w)) /\
  enabledAt (tabs w) (selectedIndex w) /\
  exists w',
    pressAll ["ArrowRight"; "ArrowRight"; "End"; "ArrowLeft"]%string w
    = (Ok tt, w') /\
    enabledAt (tabs w') (selectedIndex w').
Proof.
  cbv zeta.
  assert (H2 : NoDup (map element
                        (tabs (mount (mkTabsProps None (Some 2) true false)
                                 fourTabs None)))).
  { simpl. repeat constructor; simpl; intuition discriminate. }
  assert (H3 : enabledAt
                 (tabs (mount (mkTabsProps None (Some 2) true false)
                          fourTabs None))
                 (selectedIndex (mount (mkTabsProps None (Some 2) true false)
                                   fourTabs None))).
  { exists (mkDescendant 102%nat false). split; reflexivity. }
  split; [reflexivity|]. split; [exact H2|]. split; [exact H3|].
  destruct (key_presses_keep_selection_enabled
              ["ArrowRight"; "ArrowRight"; "End"; "ArrowLeft"]%string
              (mount (mkTabsProps None (Some 2) true false) fourTabs None)
              eq_refl H2 H3) as (w' & E & _ & He).
  exists w'. split; assumption.
Defined.

(** ** A key press followed by the update effects *)

Lemma specNext_fixed_iff (en : list Z) (sel : Z) :
  NoDup en -> In sel en ->
  (specNext en sel = Some sel <-> en = [sel]).
Proof.
  intros Hnd Hin. split.
  - destruct (positionOf_In _ _ Hin) as (k & Hk).
    pose proof (positionOf_nth_error _ _ _ Hk) as Hsel.
    unfold specNext. rewrite Hk.
    destruct (nth_error en (S k)) as [r|] eqn:Hr.
    + intros H. inversion H; subst.
      rewrite (positionOf_of_nth en Hnd _ _ Hr) in Hk.
      inversion Hk. lia.
    + unfold specFirst. rewrite hd_error_nth. intros H0.
      rewrite (positionOf_of_nth en Hnd _ _ H0) in Hk.
      inversion Hk; subst. apply nth_error_None in Hr.
      destruct en as [|a [|b l]]; simpl in *; [discriminate| |lia].
      now inversion H0.
  - intros ->. unfold specNext. simpl. now rewrite Z.eqb_refl.
Qed.

(** X7.  ["ArrowRight"] on an uncontrolled widget that is not read-only, has
    distinct nodes and an enabled selected tab, followed by the update
    effects of the resulting render: the selected index becomes the [next]
    target; if that is another tab, its node is focused exactly once and the
    user-interaction flag is cleared again; if it is the selected tab
    itself, which happens exactly when no other tab is enabled, nothing is
    focused and the flag stays set. *)
Theorem arrow_right_moves_selection_and_focus (w : Widget) :
  isControlled w = false ->
  readOnly (props w) = false ->
  NoDup (map element (tabs w)) ->
  enabledAt (tabs w) (selectedIndex w) ->
  exists fi w',
    getFocusIndices (tabs w) (focusNodes (tabs w)) (contextSelectedIndex w)
    = Ok fi /\
    (handleKeyDown "ArrowRight" ;;
     tabUpdateEffects (contextSelectedIndex w)) w = (Ok tt, w') /\
    selectedIndex w' = next fi /\
    enabledAt (tabs w) (next fi) /\
    (next fi <> selectedIndex w ->
     focusCalls (trace w')
     = focusCalls (trace w) ++ [elementAt (tabs w) (next fi)] /\
     userInteractedRef w' = false) /\
    (next fi = selectedIndex w ->
     focusCalls (trace w') = focusCalls (trace w) /\
     userInteractedRef w' = true) /\
    (next fi = selectedIndex w <->
     enabledIndices (tabs w) = [selectedIndex w]).
Proof.
  intros Hctl Hro Hnd Hen.
  pose proof (enabledAt_In _ _ Hen) as Hin.
  assert (Hne : enabledIndices (tabs w) <> []).
  { intros E. rewrite E in Hin. destruct Hin. }
  destruct Hen as (d & Hd & Hdis).
  assert (Hc : contextSelectedIndex w = Some (selectedIndex w)).
  { unfold contextSelectedIndex. now rewrite Hctl. }
  pose proof (getFocusIndices_navigate _ _ _ Hnd Hd) as Hg.
  destruct (navigate_spec (enabledIndices (tabs w)) (selectedIndex w)
              (enabledIndices_nonneg (tabs w)) Hne) as (_ & _ & _ & Hn).
  set (fi := navigate (enabledIndices (tabs w)) (selectedIndex w)) in *.
  symmetry in Hn.
  pose proof (enabledIndices_enabledAt _ _ (specNext_In _ _ _ Hn)) as Ht.
  rewrite <- Hc in Hg.
  destruct (handleKeyDown_navigation w fi Hg) as (K1 & _).
  destruct (onSelectTab_state w (next fi) Hro)
    as (w1 & E & Hp & Hi & Htabs & _ & Hf & Hs & Htr).
  rewrite Hctl in Hs, Hi.
  assert (Hc1 : contextSelectedIndex w1 = Some (next fi)).
  { unfold contextSelectedIndex. now rewrite Hi, Hs. }
  assert (Hfc : focusCalls (trace w1) = focusCalls (trace w)).
  { rewrite Htr, focusCalls_app.
    destruct (onChange (props w)); simpl; now rewrite app_nil_r. }
  destruct Ht as (dn & Hdn & Hdn').
  assert (Hfix : next fi = selectedIndex w <->
                 enabledIndices (tabs w) = [selectedIndex w]).
  { rewrite <- (specNext_fixed_iff _ _ (enabledIndices_NoDup _) Hin).
    rewrite Hn. split; congruence. }
  assert (Hrun : forall w',
             tabUpdateEffects (Some (selectedIndex w)) w1 = (Ok tt, w') ->
             (handleKeyDown "ArrowRight" ;;
              tabUpdateEffects (contextSelectedIndex w)) w = (Ok tt, w')).
  { intros w' H. unfold bind. now rewrite K1, E, Hc. }
  destruct (Z.eq_dec (next fi) (selectedIndex w)) as [Heq|Hneq].
  - exists fi, w1.
    split; [exact Hg|].
    split.
    { apply Hrun. rewrite <- Heq, <- Hc1. unfold tabUpdateEffects.
      apply tabUpdateEffects_unchanged. }
    split; [exact Hs|].
    split; [now exists dn|].
    split; [intros Hneq; congruence|].
    split; [intros _; split; assumption|exact Hfix].
  - exists fi, (focused w1 (element dn)).
    split; [exact Hg|].
    split.
    { apply Hrun.
      apply (tabUpdateEffects_moves_focus w1 _ (next fi) dn Hc1);
        [congruence|now rewrite Htabs|exact Hf]. }
    split; [exact Hs|].
    split; [now exists dn|].
    split.
    { intros _. split; [|reflexivity].
      rewrite (get_elementAt _ _ _ Hdn).
      unfold focused. cbn [trace]. now rewrite focusCalls_app, Hfc. }
    split; [intros Heq; congruence|exact Hfix].
Qed.

Lemma arrow_right_moves_selection_and_focus_witness :
  let w := mount (mkTabsProps None (Some 3) true false) fourTabs None in
  isControlled w = false /\
  readOnly (props w) = false /\
  NoDup (map element (tabs w)) /\
  enabledAt (tabs w) (selectedIndex w) /\
  exists fi w',
    (handleKeyDown "ArrowRight" ;;
     tabUpdateEffects (contextSelectedIndex w)) w = (Ok tt, w') /\
    selectedIndex w' = next fi /\
    enabledAt (tabs w) (next fi).
Proof.
  cbv zeta.
  assert (H3 : NoDup (map element
                        (tabs (mount (mkTabsProps None (Some 3) true false)
                                 fourTabs None)))).
  { simpl. repeat constructor; simpl; intuition discriminate. }
  assert (H4 : enabledAt
                 (tabs (mount (mkTabsProps None (Some 3) true false)
                          fourTabs None))
                 (selectedIndex (mount (mkTabsProps None (Some 3) true false)
                                   fourTabs None))).
  { exists (mkDescendant 103%nat false). split; reflexivity. }
  split; [reflexivity|]. split; [reflexivity|]. split; [exact H3|].
  split; [exact H4|].
  destruct (arrow_right_moves_selection_and_focus
              (mount (mkTabsProps None (Some 3) true false) fourTabs None)
              eq_refl eq_refl H3 H4) as (fi & w' & _ & E & S & T & _).
  exists fi, w'. repeat split; assumption.
Defined.

(** ** The layout effect in closed form *)

Lemma navigate_next_absent (en : list Z) (sel : Z) :
  positionOf sel en = None -> next (navigate en sel) = hd (-1) en.
Proof.
  intros H. unfold navigate, positionZ. rewrite H. simpl.
  replace (pick en 0) with (hd (-1) en) by (now destruct en).
  now destruct (hd (-1) en =? -1).
Qed.

(** The layout effect when its guard fails, and when it holds. *)
Lemma tabListLayoutEffect_skips (w : Widget) :
  negb (isControlled w) &&
  match get (tabs w) (selectedIndex w) with
  | Some d => disabled d
  | None => false
  end = false ->
  tabListLayoutEffect w = (Ok tt, w).
Proof.
  unfold tabListLayoutEffect, contextSelectedIndex.
  destruct (isControlled w); [reflexivity|].
  cbn [negb andb getAt]. now intros ->.
Qed.

Lemma tabListLayoutEffect_corrects (w : Widget) (d : Descendant) :
  NoDup (map element (tabs w)) ->
  isControlled w = false ->
  get (tabs w) (selectedIndex w) = Some d ->
  disabled d = true ->
  tabListLayoutEffect w
  = setSelectedIndex (hd (-1) (enabledIndices (tabs w))) w.
Proof.
  intros Hnd Hctl Hd Hdis. unfold tabListLayoutEffect, contextSelectedIndex.
  rewrite Hctl. cbn [negb andb getAt]. rewrite Hd, Hdis.
  unfold bind, liftResult.
  rewrite (getFocusIndices_navigate _ _ _ Hnd Hd).
  unfold contextSetSelectedIndex. rewrite Hctl.
  rewrite navigate_next_absent; [reflexivity|].
  apply positionOf_absent. intros Hin.
  destruct (enabledIndices_enabledAt _ _ Hin) as (d' & H1 & H2).
  congruence.
Qed.

(** X8.  The layout effect of [TabList] never throws and changes at most the
    internal selected index.  On an uncontrolled widget whose selected index
    addresses a disabled tab it selects the first enabled raw index, or [-1]
    when no tab is enabled; on a controlled widget, and when the selected
    index addresses an enabled tab or no tab at all, it does nothing. *)
Theorem tabListLayoutEffect_closed_form (w : Widget) :
  NoDup (map element (tabs w)) ->
  tabListLayoutEffect w =
  (Ok tt,
   if negb (isControlled w) &&
      match get (tabs w) (selectedIndex w) with
      | Some d => disabled d
      | None => false
      end
   then snd (setSelectedIndex (hd (-1) (enabledIndices (tabs w))) w)
   else w).
Proof.
  intros Hnd.
  destruct (negb (isControlled w) &&
            match get (tabs w) (selectedIndex w) with
            | Some d => disabled d
            | None => false
            end) eqn:G.
  - apply andb_true_iff in G. destruct G as (G1 & G2).
    apply negb_true_iff in G1.
    destruct (get (tabs w) (selectedIndex w)) as [d|] eqn:Hd;
      [|discriminate].
    now rewrite (tabListLayoutEffect_corrects w d Hnd G1 Hd G2).
  - now apply tabListLayoutEffect_skips.
Qed.

Lemma tabListLayoutEffect_closed_form_witness :
  NoDup (map element (tabs oneDisabledTab)) /\
  tabListLayoutEffect oneDisabledTab
  = (Ok tt, snd (setSelectedIndex (-1) oneDisabledTab)).
Proof.
  assert (H : NoDup (map element (tabs oneDisabledTab))).
  { simpl. repeat constructor; simpl; intuition discriminate. }
  split; [exact H|].
  apply (tabListLayoutEffect_closed_form oneDisabledTab H).
Defined.

(** X9.  Running the layout effect twice is the same as running it once: after a
    correction the selected index addresses an enabled tab, or is [-1], and
    the effect has nothing left to do. *)
Theorem tabListLayoutEffect_idempotent (w : Widget) :
  NoDup (map element (tabs w)) ->
  (tabListLayoutEffect ;; tabListLayoutEffect) w = tabListLayoutEffect w.
Proof.
  intros Hnd. unfold bind.
  destruct (negb (isControlled w) &&
            match get (tabs w) (selectedIndex w) with
            | Some d => disabled d
            | None => false
            end) eqn:G.
  - apply andb_true_iff in G. destruct G as (G1 & G2).
    apply negb_true_iff in G1.
    destruct (get (tabs w) (selectedIndex w)) as [d|] eqn:Hd;
      [|discriminate].
    rewrite (tabListLayoutEffect_corrects w d Hnd G1 Hd G2).
    cbn [setSelectedIndex].
    apply tabListLayoutEffect_skips. apply andb_false_iff. right.
    cbn [tabs selectedIndex].
    destruct (enabledIndices (tabs w)) as [|a l] eqn:E; simpl.
    + reflexivity.
    + assert (Hin : In a (enabledIndices (tabs w)))
        by (rewrite E; now left).
      destruct (enabledIndices_enabledAt _ _ Hin) as (d' & H1 & H2).
      now rewrite H1.
  - rewrite (tabListLayoutEffect_skips w G).
    now apply tabListLayoutEffect_skips.
Qed.

Lemma tabListLayoutEffect_idempotent_witness :
  let w := mount (mkTabsProps None None true false) threeTabs None in
  NoDup (map element (tabs w)) /\
  (tabListLayoutEffect ;; tabListLayoutEffect) w = tabListLayoutEffect w /\
  selectedIndex (snd (tabListLayoutEffect w)) = 1.
Proof.
  cbv zeta.
  assert (H : NoDup (map element
                       (tabs (mount (mkTabsProps None None true false)
                                threeTabs None)))).
  { simpl. repeat constructor; simpl; intuition discriminate. }
  split; [exact H|]. split; [|reflexivity].
  apply (tabListLayoutEffect_idempotent
           (mount (mkTabsProps None None true false) threeTabs None) H).
Defined.

(** ** Sequences of select requests *)

Lemma last_default {A} (l : list A) (d d' : A) :
  l <> [] -> List.last l d = List.last l d'.
Proof.
  induction l as [|a l IH]; intros H; [congruence|].
  destruct l as [|b l]; [reflexivity|].
  change (List.last (b :: l) d = List.last (b :: l) d').
  apply IH. discriminate.
Qed.

(** X10.  A sequence of select requests on a widget that is not read-only and has
    an [onChange] handler calls [onChange] once per request, in order of
    the requests; an uncontrolled widget ends at the index requested last,
    a controlled one keeps its selected index throughout. *)
Theorem requestAll_calls_onChange_in_order (requests : list Z) :
  forall w,
    readOnly (props w) = false ->
    onChange (props w) = true ->
    exists w',
      requestAll requests w = (Ok tt, w') /\
      onChangeCalls (trace w') = onChangeCalls (trace w) ++ requests /\
      focusCalls (trace w') = focusCalls (trace w) /\
      (isControlled w = false ->
       contextSelectedIndex w'
       = Some (List.last requests (selectedIndex w))) /\
      (isControlled w = true ->
       contextSelectedIndex w' = contextSelectedIndex w).
Proof.
  induction requests as [|i rest IH]; intros w Hro Hoc.
  - exists w. simpl. rewrite app_nil_r. repeat split.
    intros Hctl. unfold contextSelectedIndex. now rewrite Hctl.
  - destruct (onSelectTab_state w i Hro)
      as (w1 & E & Hp & Hi & _ & _ & _ & Hs & Htr).
    rewrite Hoc in Htr.
    assert (Hro1 : readOnly (props w1) = false) by now rewrite Hp.
    assert (Hoc1 : onChange (props w1) = true) by now rewrite Hp.
    destruct (IH w1 Hro1 Hoc1) as (w' & E' & Hc & Hf & Hu & Hk).
    exists w'. simpl. unfold bind. rewrite E.
    split; [exact E'|].
    split.
    { rewrite Hc, Htr, onChangeCalls_app. simpl. now rewrite <- app_assoc. }
    split.
    { rewrite Hf, Htr, focusCalls_app. simpl. now rewrite app_nil_r. }
    split.
    + intros Hctl. rewrite Hi in Hu. rewrite (Hu Hctl).
      rewrite Hctl in Hs. rewrite Hs. f_equal.
      destruct rest as [|z rest]; [reflexivity|].
      change (List.last (i :: z :: rest) (selectedIndex w))
        with (List.last (z :: rest) (selectedIndex w)).
      apply last_default. discriminate.
    + intros Hctl. rewrite Hi in Hk. rewrite (Hk Hctl).
      unfold contextSelectedIndex. now rewrite Hi, Hp, Hctl.
Qed.

Lemma requestAll_calls_onChange_in_order_witness :
  let w := mount (mkTabsProps None None true false) threeTabs None in
  readOnly (props w) = false /\
  onChange (props w) = true /\
  exists w',
    requestAll [2; 1; 2] w = (Ok tt, w') /\
    onChangeCalls (trace w') = [2; 1; 2] /\
    contextSelectedIndex w' = Some 2.
Proof.
  cbv zeta. split; [reflexivity|]. split; [reflexivity|].
  destruct (requestAll_calls_onChange_in_order [2; 1; 2]
              (mount (mkTabsProps None None true false) threeTabs None)
              eq_refl eq_refl) as (w' & E & C & _ & U & _).
  exists w'. split; [exact E|]. split; [exact C|]. now apply U.
Defined.

(** ** What the handlers leave alone *)

Lemma onSelectTab_frame (w : Widget) (i : Z) :
  let w' := snd (onSelectTab i w) in
  props w' = props w /\
  isControlled w' = isControlled w /\
  tabs w' = tabs w.
Proof.
  cbv zeta. unfold onSelectTab.
  destruct (readOnly (props w)); [repeat split|]. run.
  destruct (onChange (props w)), (isControlled w); repeat split.
Qed.

Lemma handleKeyDown_frame (w : Widget) (key : string) :
  let w' := snd (handleKeyDown key w) in
  props w' = props w /\
  isControlled w' = isControlled w /\
  tabs w' = tabs w.
Proof.
  cbv zeta. unfold handleKeyDown.
  destruct (isNavigationKey key); [|repeat split].
  cbn [negb]. unfold bind, liftResult.
  destruct (getFocusIndices (tabs w) (focusNodes (tabs w))
              (contextSelectedIndex w)) as [fi|e]; [|repeat split].
  destruct (key =? "ArrowRight")%string; [apply onSelectTab_frame|].
  destruct (key =? "ArrowLeft")%string; [apply onSelectTab_frame|].
  destruct (key =? "ArrowDown")%string.
  { unfold onFocusPanel. run. destruct (selectedPanelRef w); repeat split. }
  destruct (key =? "Home")%string; [apply onSelectTab_frame|].
  destruct (key =? "End")%string; [apply onSelectTab_frame|].
  repeat split.
Qed.

Lemma pressAll_frame (keys : list string) :
  forall w,
    let w' := snd (pressAll keys w) in
    props w' = props w /\
    isControlled w' = isControlled w /\
    tabs w' = tabs w.
Proof.
  induction keys as [|key rest IH]; intros w; cbv zeta; [repeat split|].
  simpl. unfold bind.
  pose proof (handleKeyDown_frame w key) as F. cbv zeta in F.
  destruct (handleKeyDown key w) as [[[]|e] w1]; simpl in F.
  - specialize (IH w1). cbv zeta in IH.
    destruct F as (F1 & F2 & F3), IH as (I1 & I2 & I3).
    repeat split; congruence.
  - exact F.
Qed.

Lemma requestAll_frame (requests : list Z) :
  forall w,
    let w' := snd (requestAll requests w) in
    props w' = props w /\
    isControlled w' = isControlled w /\
    tabs w' = tabs w.
Proof.
  induction requests as [|i rest IH]; intros w; cbv zeta; [repeat split|].
  simpl. unfold bind.
  pose proof (onSelectTab_frame w i) as F. cbv zeta in F.
  destruct (onSelectTab i w) as [[[]|e] w1]; simpl in F.
  - specialize (IH w1). cbv zeta in IH.
    destruct F as (F1 & F2 & F3), IH as (I1 & I2 & I3).
    repeat split; congruence.
  - exact F.
Qed.

Lemma tabUpdateEffectsFrom_frame (before : option Z) (ds : list Descendant) :
  forall n w,
    let w' := snd (tabUpdateEffectsFrom before ds n w) in
    props w' = props w /\ isControlled w' = isControlled w.
Proof.
  induction ds as [|d rest IH]; intros n w; cbv zeta; [now split|].
  cbn [tabUpdateEffectsFrom]. unfold bind, tabUpdateEffect.
  destruct (Bool.eqb _ _); [apply IH|].
  destruct (sameIndex n (contextSelectedIndex w) && userInteractedRef w);
    [|apply IH].
  run. destruct (IH (n + 1) (focused w (element d))) as (I1 & I2).
  split; [exact I1|exact I2].
Qed.

Lemma contextSelectedIndex_controlled (w w' : Widget) :
  isControlled w = true ->
  props w' = props w ->
  isControlled w' = isControlled w ->
  contextSelectedIndex w' = controlledIndex (props w).
Proof.
  intros Hctl Hp Hi. unfold contextSelectedIndex. now rewrite Hi, Hctl, Hp.
Qed.

(** X11.  The selected index of a controlled widget is the owner's [index] prop
    and nothing else: no sequence of key presses or select requests, and
    neither the layout effect nor the update effects, changes the index the
    tabs render with; the layout effect does nothing at all; only new props
    change it. *)
Theorem controlled_selection_is_the_prop (w : Widget) :
  isControlled w = true ->
  (forall keys,
      contextSelectedIndex (snd (pressAll keys w))
      = controlledIndex (props w)) /\
  (forall requests,
      contextSelectedIndex (snd (requestAll requests w))
      = controlledIndex (props w)) /\
  tabListLayoutEffect w = (Ok tt, w) /\
  (forall before,
      contextSelectedIndex (snd (tabUpdateEffects before w))
      = controlledIndex (props w)) /\
  (forall p,
      contextSelectedIndex (snd (setProps p w)) = controlledIndex p).
Proof.
  intros Hctl. split; [|split; [|split; [|split]]].
  - intros keys. destruct (pressAll_frame keys w) as (F1 & F2 & _).
    now apply contextSelectedIndex_controlled.
  - intros requests. destruct (requestAll_frame requests w) as (F1 & F2 & _).
    now apply contextSelectedIndex_controlled.
  - unfold tabListLayoutEffect. now rewrite Hctl.
  - intros before. unfold tabUpdateEffects.
    destruct (tabUpdateEffectsFrom_frame before (tabs w) 0 w) as (F1 & F2).
    now apply contextSelectedIndex_controlled.
  - intros p. unfold contextSelectedIndex. simpl. now rewrite Hctl.
Qed.

Lemma controlled_selection_is_the_prop_witness :
  isControlled controlledAtOne = true /\
  contextSelectedIndex
    (snd (pressAll ["ArrowRight"; "Home"]%string controlledAtOne))
  = Some 1.
Proof.
  split; [reflexivity|].
  apply (controlled_selection_is_the_prop controlledAtOne eq_refl).
Defined.

(** ** Switching between controlled and uncontrolled *)

Lemma renderTabsFrom_unselected (tabsId : string) (ds : list Descendant) :
  forall n,
    Forall (fun t => tab_tabIndex t = -1 /\ tab_aria_selected t = false)
      (renderTabsFrom tabsId None ds n).
Proof.
  induction ds as [|d rest IH]; intros n; simpl; constructor.
  - split; reflexivity.
  - apply IH.
Qed.

(** X12.  The mode is fixed when the widget mounts.  Mounting never warns;
    re-rendering with new props warns exactly when they switch between
    supplying and omitting [index].  After a controlled widget loses its
    [index] the selected index is [undefined]: every tab renders unselected
    with [tabIndex] [-1], and while some tab is enabled every navigation key
    throws.  After an uncontrolled widget is given an [index] the prop is
    ignored and the selected index is still the internal one. *)
Theorem mode_is_fixed_at_mount
    (p p' : TabsProps) (ds : list Descendant) (panel : option Element) :
  let w0 := mount p ds panel in
  let w := snd (setProps p' w0) in
  modeWarnings w0 = [] /\
  (modeWarnings w = [] <->
   (controlledIndex p = None <-> controlledIndex p' = None)) /\
  (controlledIndex p <> None -> controlledIndex p' = None ->
   modeWarnings w = [ControlledToUncontrolled] /\
   contextSelectedIndex w = None /\
   (forall tabsId,
       Forall (fun t => tab_tabIndex t = -1 /\ tab_aria_selected t = false)
         (renderTabs tabsId w)) /\
   (focusNodes ds <> [] ->
    forall key, isNavigationKey key = true ->
                handleKeyDown key w = (Throw TypeError, w))) /\
  (controlledIndex p = None -> controlledIndex p' <> None ->
   modeWarnings w = [UncontrolledToControlled] /\
   contextSelectedIndex w = contextSelectedIndex w0).
Proof.
  cbv zeta. unfold modeWarnings, contextSelectedIndex, renderTabs. simpl.
  destruct (controlledIndex p) as [c|] eqn:Hp;
    destruct (controlledIndex p') as [c'|] eqn:Hp'; simpl.
  - split; [reflexivity|]. split; [split; [intros _; split|]; congruence|].
    split; [intros _ H; discriminate|]. intros H; congruence.
  - split; [reflexivity|].
    split; [split; [discriminate|intros [_ H]; now discriminate H]|].
    split; [|intros H; congruence].
    intros _ _. split; [reflexivity|]. split; [reflexivity|].
    split.
    { intros tabsId. unfold contextSelectedIndex. simpl. rewrite Hp'.
      apply renderTabsFrom_unselected. }
    intros Hfn key Hkey. apply handleKeyDown_throw; [exact Hkey|].
    unfold contextSelectedIndex. simpl. rewrite Hp'.
    unfold getFocusIndices, findIndex.
    destruct (focusNodes ds) as [|e l]; [congruence|]. reflexivity.
  - split; [reflexivity|].
    split; [split; [discriminate|intros [H _]; now discriminate H]|].
    split; [intros H; congruence|].
    intros _ _. split; reflexivity.
  - split; [reflexivity|]. split; [split; [intros _; split|]; congruence|].
    split; [intros H; congruence|]. intros _ H. congruence.
Qed.

Lemma mode_is_fixed_at_mount_witness :
  let p := mkTabsProps (Some 1) None true false in
  let p' := mkTabsProps None None true false in
  let w := snd (setProps p' (mount p threeTabs None)) in
  controlledIndex p <> None /\
  controlledIndex p' = None /\
  focusNodes threeTabs <> [] /\
  modeWarnings w = [ControlledToUncontrolled] /\
  handleKeyDown "ArrowRight" w = (Throw TypeError, w).
Proof.
  cbv zeta.
  assert (H1 : controlledIndex (mkTabsProps (Some 1) None true false)
               <> None) by discriminate.
  assert (H3 : focusNodes threeTabs <> []) by (simpl; discriminate).
  destruct (mode_is_fixed_at_mount
              (mkTabsProps (Some 1) None true false)
              (mkTabsProps None None true false) threeTabs None)
    as (_ & _ & S & _).
  destruct (S H1 eq_refl) as (W & _ & _ & K).
  split; [exact H1|]. split; [reflexivity|]. split; [exact H3|].
  split; [exact W|]. apply (K H3). reflexivity.
Defined.

(** ** The roving tab order *)

Lemma length_cons {A} (a : A) (l : list A) :
  length (a :: l) = length l + 1.
Proof. unfold length. cbn [List.length]. lia. Qed.

Lemma length_nonneg {A} (l : list A) : 0 <= length l.
Proof. unfold length. lia. Qed.

Lemma inRange_step (sel : option Z) (n len : Z) :
  0 <= len ->
  inRange sel n (len + 1)
  = ((if sameIndex n sel then 1 else 0) + inRange sel (n + 1) len)%nat.
Proof.
  intros Hlen. unfold inRange, sameIndex. destruct sel as [j|]; [|reflexivity].
  destruct (Z.eqb_spec n j), (Z.leb_spec n j), (Z.ltb_spec j (n + (len + 1))),
    (Z.leb_spec (n + 1) j), (Z.ltb_spec j (n + 1 + len));
    simpl; try reflexivity; lia.
Qed.

Lemma renderTabsFrom_count (tabsId : string) (sel : option Z)
    (ds : list Descendant) :
  forall n,
    List.length (filter (fun t => tab_tabIndex t =? 0)
                   (renderTabsFrom tabsId sel ds n))
    = inRange sel n (length ds) /\
    List.length (filter tab_aria_selected (renderTabsFrom tabsId sel ds n))
    = inRange sel n (length ds).
Proof.
  induction ds as [|d rest IH]; intros n.
  - simpl. unfold inRange. destruct sel as [j|]; [|now split].
    destruct (Z.leb_spec n j), (Z.ltb_spec j (n + length (@nil Descendant)));
      simpl; split; try reflexivity; unfold length in *; simpl in *; lia.
  - rewrite length_cons, (inRange_step sel n _ (length_nonneg rest)).
    destruct (IH (n + 1)) as (I1 & I2). simpl.
    destruct (sameIndex n sel); simpl; now rewrite I1, I2.
Qed.

Lemma renderTabsFrom_length (tabsId : string) (sel : option Z)
    (ds : list Descendant) :
  forall n, List.length (renderTabsFrom tabsId sel ds n) = List.length ds.
Proof.
  induction ds as [|d rest IH]; intros n; [reflexivity|].
  cbn [renderTabsFrom List.length]. now rewrite IH.
Qed.

Lemma renderTabPanelsFrom_count (tabsId : string) (sel : option Z)
    (count : nat) :
  forall n,
    List.length (filter (fun p => negb (panel_hidden p))
                   (renderTabPanelsFrom tabsId sel count n))
    = inRange sel n (Z.of_nat count).
Proof.
  induction count as [|count IH]; intros n.
  - simpl. unfold inRange. destruct sel as [j|]; [|reflexivity].
    destruct (Z.leb_spec n j), (Z.ltb_spec j (n + 0)); simpl;
      try reflexivity; lia.
  - replace (Z.of_nat (S count)) with (Z.of_nat count + 1) by lia.
    rewrite (inRange_step sel n _ (Nat2Z.is_nonneg count)).
    simpl. rewrite negb_involutive.
    destruct (sameIndex n sel); simpl; now rewrite IH.
Qed.

Lemma inRange_getAt {A} (l : list A) (sel : option Z) :
  inRange sel 0 (length l)
  = match getAt l sel with Some _ => 1%nat | None => 0%nat end.
Proof.
  unfold inRange, getAt, get. destruct sel as [j|]; [|reflexivity].
  destruct (Z.leb_spec 0 j), (Z.ltb_spec j 0); try lia; simpl.
  - destruct (Z.ltb_spec j (length l)).
    + destruct (nth_error l (Z.to_nat j)) eqn:E; [reflexivity|].
      apply nth_error_None in E. unfold length in *. lia.
    + assert (E : nth_error l (Z.to_nat j) = None)
        by (apply nth_error_None; unfold length in *; lia).
      now rewrite E.
  - reflexivity.
Qed.

(** X13.  The rendered tabs carry a roving tab order: exactly one tab has
    [tabIndex] 0 and [aria-selected] true when the selected index addresses
    a registered tab, and none has when it does not (a stale or [undefined]
    index leaves no tab in the tab order).  Likewise exactly one of [count]
    rendered panels is visible when the selected index is below [count], and
    none otherwise. *)
Theorem roving_tab_order (tabsId : string) (w : Widget) (count : nat) :
  let selected := contextSelectedIndex w in
  let one :=
    match getAt (tabs w) selected with Some _ => 1%nat | None => 0%nat end in
  List.length (renderTabs tabsId w) = List.length (tabs w) /\
  List.length (filter (fun t => tab_tabIndex t =? 0) (renderTabs tabsId w))
  = one /\
  List.length (filter tab_aria_selected (renderTabs tabsId w)) = one /\
  List.length (filter (fun p => negb (panel_hidden p))
                 (renderTabPanelsFrom tabsId selected count 0))
  = inRange selected 0 (Z.of_nat count).
Proof.
  cbv zeta. unfold renderTabs.
  destruct (renderTabsFrom_count tabsId (contextSelectedIndex w) (tabs w) 0)
    as (C1 & C2).
  rewrite C1, C2, inRange_getAt, renderTabPanelsFrom_count.
  repeat split. apply renderTabsFrom_length.
Qed.

(** ** The validator of the [index] prop *)

(** X14.  What the validator accepts.  An [undefined] index always passes.
    A number passes unless it is greater than [-1] while no [onChange] is
    given and [readOnly] is not [true]: without a handler a finite number
    passes exactly when it is at most [-1] (so [-0.5] is rejected), [NaN]
    and [-Infinity] pass and [Infinity] does not.  [null] converts to 0 in
    the comparison and is rejected under the same condition as 0.  A
    boolean, string, array, object or function never passes, and when the
    missing-handler condition does not apply an array is reported as
    [array]. *)
Theorem indexPropType_accepts
    (props : RawProps) (compName propName : string) :
  let handled :=
    negb (looseNull (raw_onChange props)) || strictTrue (raw_readOnly props) in
  let result := indexPropType props compName propName in
  (raw_index props = VUndefined -> result = None) /\
  (forall n, raw_index props = VNumber n ->
             (result = None <->
              numberGreaterThan n (-1) = false \/ handled = true)) /\
  (forall q, raw_index props = VNumber (Finite q) ->
             (result = None <-> (q <= inject_Z (-1))%Q \/ handled = true)) /\
  (raw_index props = VNumber NaN -> result = None) /\
  (raw_index props = VNumber (Infinity true) -> result = None) /\
  (raw_index props = VNumber (Infinity false) ->
   (result = None <-> handled = true)) /\
  (raw_index props = VNull -> (result = None <-> handled = true)) /\
  (forall b, raw_index props = VBoolean b -> result <> None) /\
  (forall kind n, raw_index props = VOther kind n -> result <> None) /\
  (forall n, raw_index props = VOther KArray n -> handled = true ->
             result =
             Some ("Invalid prop `" ++ propName ++ "` supplied to `" ++
                   compName ++ "`. Expected `number`, received `array`.")
                  %string).
Proof.
  cbv zeta. unfold indexPropType. destruct props as [idx oc ro].
  cbn [raw_index raw_onChange raw_readOnly].
  assert (Hnum : forall n,
             idx = VNumber n ->
             (if greaterThan idx (-1) && looseNull oc && negb (strictTrue ro)
              then Some ("You provided a value prop to `" ++ compName ++
                         "` without an `onChange` handler. This will render a read-only tabs element. If the tabs should be mutable use `defaultIndex`. Otherwise, set `onChange`.")%string
              else if negb (looseNull idx) && negb (typeOf idx =? "number")%string
                   then Some ("Invalid prop `" ++ propName ++
                              "` supplied to `" ++ compName ++
                              "`. Expected `number`, received `" ++
                              (if isArray idx then "array" else typeOf idx)
                              ++ "`.")%string
                   else None) = None <->
             numberGreaterThan n (-1) = false \/
             negb (looseNull oc) || strictTrue ro = true).
  { intros n ->. unfold greaterThan. cbn [toNumber looseNull typeOf].
    destruct (numberGreaterThan n (-1)), (looseNull oc), (strictTrue ro);
      simpl; split; intros Hacc; try reflexivity; try discriminate;
      try (now left); try (now right);
      destruct Hacc as [Hacc|Hacc]; discriminate. }
  split; [intros ->; reflexivity|].
  split; [exact Hnum|].
  split.
  { intros q Hq. rewrite (Hnum _ Hq). cbn [numberGreaterThan].
    rewrite negb_false_iff, Qle_bool_iff. reflexivity. }
  split; [intros Hq; apply (Hnum _ Hq); now left|].
  split; [intros Hq; apply (Hnum _ Hq); now left|].
  split.
  { intros Hq. rewrite (Hnum _ Hq). cbn [numberGreaterThan negb].
    split; [intros [H|H]; [discriminate|exact H]|now right]. }
  split.
  { intros ->. unfold greaterThan. simpl.
    destruct (looseNull oc), (strictTrue ro); simpl; split; intros Hacc;
      try reflexivity; discriminate. }
  split.
  { intros b ->. unfold greaterThan. simpl.
    destruct b, (looseNull oc), (strictTrue ro); simpl; discriminate. }
  split.
  { intros kind n ->. unfold greaterThan. cbn [toNumber].
    destruct (numberGreaterThan n (-1)), (looseNull oc), (strictTrue ro),
      kind; simpl; discriminate. }
  intros n -> H. unfold greaterThan. cbn [toNumber].
  destruct (looseNull oc), (strictTrue ro); try discriminate;
    destruct (numberGreaterThan n (-1)); reflexivity.
Qed.

Lemma indexPropType_accepts_witness :
  let half := VNumber (Finite (-1 # 2)) in
  let props := mkRawProps half VUndefined VUndefined in
  raw_index props = half /\
  indexPropType props "Tabs" "index" <> None /\
  indexPropType (mkRawProps (VNumber (Finite (inject_Z (-1))))
                   VUndefined VUndefined) "Tabs" "index" = None /\
  indexPropType (mkRawProps (VNumber NaN) VUndefined VUndefined)
    "Tabs" "index" = None.
Proof.
  cbv zeta. split; [reflexivity|].
  destruct (indexPropType_accepts
              (mkRawProps (VNumber (Finite (-1 # 2))) VUndefined VUndefined)
              "Tabs" "index") as (_ & _ & F & _).
  split.
  - intros E. apply (F _ eq_refl) in E. destruct E as [E|E].
    + apply Qle_bool_iff in E. discriminate.
    + discriminate.
  - split; reflexivity.
Defined.
